(** * Task queue: producer API and batch consumer

    A shallow embedding of the task-management service:
    - [src/processor/index.py]: the SQS batch consumer ([process_task],
      [lambda_handler]) with its process-local idempotency set
      [processed_tasks];
    - [src/api/models.py]: the request model [TaskCreate] with its two
      field validators;
    - [src/api/index.py]: the API-key middleware [validate_api_key], the
      exception handlers and the endpoint [create_task].

    Python values are modelled as follows.
    - [str] is [string]; a character is a code point below 256.
    - The result of [json.loads] is a [json] tree.  Number literals with a
      fraction or an exponent (Python floats) are not represented.
    - A [set] is a [gset]; its elements are the hashable values a JSON
      document can contain ([pykey]).
    - A raised exception is the [Raise] alternative of [result]; state that
      the code mutates (the registry, the log, the queue) is passed
      explicitly.
    - Library functions whose code is not part of the repository
      ([json.loads], [datetime.fromisoformat], [uuid.uuid4],
      [datetime.now], the SQS client) are parameters. *)

From Stdlib Require Import ZArith String Ascii List.
From stdpp Require Import base decidable countable gmap sets list strings.

Local Open Scope string_scope.
Local Open Scope list_scope.
Set Warnings "-register-all,-clear-no-such-hyp".

(** ** Python strings *)

Module PyStr.

(** [str.isspace] on one character, for code points below 256:
    TAB..CR, FS..US, SPACE, NEL and NBSP. *)
Definition isspace (c : ascii) : bool :=
  let n := nat_of_ascii c in
  (((9 <=? n) && (n <=? 13)) || ((28 <=? n) && (n <=? 32))
   || (n =? 133) || (n =? 160))%nat.

Fixpoint lstrip (s : string) : string :=
  match s with
  | EmptyString => EmptyString
  | String c r => if isspace c then lstrip r else s
  end.

Fixpoint rstrip (s : string) : string :=
  match s with
  | EmptyString => EmptyString
  | String c r =>
      match rstrip r with
      | EmptyString => if isspace c then EmptyString else String c EmptyString
      | r' => String c r'
      end
  end.

(** [s.strip()] *)
Definition strip (s : string) : string := rstrip (lstrip s).

(** [s.replace(old, new)] for a one-character [old]. *)
Fixpoint replace (old : ascii) (new : string) (s : string) : string :=
  match s with
  | EmptyString => EmptyString
  | String c r =>
      if Ascii.eqb c old then new +:+ replace old new r
      else String c (replace old new r)
  end.



(** Truth value of a string: [bool(s)]. *)
Definition truthy (s : string) : bool :=
  match s with EmptyString => false | _ => true end.

(** [c in s] for a character. *)
Fixpoint contains (c : ascii) (s : string) : bool :=
  match s with
  | EmptyString => false
  | String d r => Ascii.eqb d c || contains c r
  end.

(** A string made of whitespace only (the empty string included). *)
Fixpoint blank (s : string) : bool :=
  match s with
  | EmptyString => true
  | String c r => isspace c && blank r
  end.

(** The one-character string made of the double quote. *)
Definition dquote : string := String (ascii_of_nat 34) EmptyString.

Definition quoted (s : string) : string := dquote +:+ s +:+ dquote.

End PyStr.

(** ** JSON documents and Python exceptions *)

Inductive json : Type :=
| JNull
| JBool (b : bool)
| JInt (z : Z)
| JString (s : string)
| JArray (items : list json)
| JObject (members : list (string * json)).

(** The exception classes the code raises or catches. *)
Inductive exn : Type :=
| JSONDecodeError
| KeyError
| AttributeError
| TypeError
| ValueError
| OtherException (type_name : string).

Inductive result (A : Type) : Type :=
| Ok (a : A)
| Raise (e : exn).
Arguments Ok {A} a.
Arguments Raise {A} e.

Definition rbind {A B} (r : result A) (k : A -> result B) : result B :=
  match r with
  | Ok a => k a
  | Raise e => Raise e
  end.

Definition rmap {A B} (f : A -> B) (r : result A) : result B :=
  rbind r (fun a => Ok (f a)).

(** Items of a [dict] in insertion order; the keys of a dict are distinct. *)
Fixpoint dict_lookup {V} (members : list (string * V)) (k : string) : option V :=
  match members with
  | [] => None
  | (k', v) :: rest => if String.eqb k' k then Some v else dict_lookup rest k
  end.

(** [v.get(k, d)]: only a dict has the attribute [get]. *)
Definition py_get (v : json) (k : string) (d : json) : result json :=
  match v with
  | JObject members => Ok (default d (dict_lookup members k))
  | _ => Raise AttributeError
  end.

(** Hashable values of a JSON document, up to Python equality:
    [True == 1] and [False == 0] are one key each. *)
Inductive pykey : Type :=
| KNone
| KInt (z : Z)
| KStr (s : string).

#[global] Instance pykey_eq_dec : EqDecision pykey.
Proof. solve_decision. Defined.

Definition pykey_encode (k : pykey) : unit + (Z + string) :=
  match k with
  | KNone => inl tt
  | KInt z => inr (inl z)
  | KStr s => inr (inr s)
  end.

Definition pykey_decode (x : unit + (Z + string)) : pykey :=
  match x with
  | inl _ => KNone
  | inr (inl z) => KInt z
  | inr (inr s) => KStr s
  end.

#[global] Instance pykey_countable : Countable pykey.
Proof.
  apply (inj_countable' pykey_encode pykey_decode).
  intros []; reflexivity.
Defined.

(** [hash(v)]: lists and dicts are unhashable. *)
Definition py_hash (v : json) : result pykey :=
  match v with
  | JNull => Ok KNone
  | JBool b => Ok (KInt (if b then 1 else 0))
  | JInt z => Ok (KInt z)
  | JString s => Ok (KStr s)
  | JArray _ | JObject _ => Raise TypeError
  end.

(** ** The batch consumer, [src/processor/index.py] *)

Module Processor.

(** One SQS record of the event. *)
Record record : Type := {
  messageId : option string;
  receiptHandle : option string;
  body : option string;
  attributes : option (list (string * string))
}.

Record event : Type := { Records : option (list record) }.

Record item_failure : Type := { itemIdentifier : string }.

(** [processed_tasks: Set[str] = set()] at module load. *)
Definition processed_tasks : gset pykey := ∅.

(** [process_task(task_data)]: the new registry and whether the call
    returned or raised.  The calls to the logger do not raise and are
    left out. *)
Definition process_task (registry : gset pykey) (task_data : json)
  : gset pykey * result unit :=
  match py_get task_data "task_id" (JString "unknown") with
  | Raise e => (registry, Raise e)
  | Ok task_id =>
      match py_hash task_id with
      | Raise e => (registry, Raise e)
      | Ok k =>
          if decide (k ∈ registry) then (registry, Ok tt)
          else ({[k]} ∪ registry, Ok tt)
      end
  end.

Section Handler.

(** [json.loads] on a [str]; [None] stands for [JSONDecodeError]. *)
Variable json_loads : string -> option json.

Definition message_id (r : record) : string :=
  default "unknown" (messageId r).

(** The [try] block of the loop body.  The second component is the local
    variable [task_data], which keeps its binding across iterations. *)
Definition try_record (registry : gset pykey) (task_data : option json)
    (r : record) : gset pykey * option json * result unit :=
  let message_body := default "{}" (body r) in
  match json_loads message_body with
  | None => (registry, task_data, Raise JSONDecodeError)
  | Some td =>
      match py_get td "task_id" (JString "unknown") with
      | Raise e => (registry, Some td, Raise e)
      | Ok _ =>
          let '(registry', res) := process_task registry td in
          (registry', Some td, res)
      end
  end.

(** The three [except] clauses.  Each ends by appending the failure; the
    last one first evaluates [task_data.get("task_id", "unknown")] for its
    log record when [task_data] is bound, which can raise in turn. *)
Definition except_clause (task_data : option json) (e : exn) : result unit :=
  match e with
  | JSONDecodeError => Ok tt
  | KeyError => Ok tt
  | _ =>
      match task_data with
      | Some td => rmap (fun _ => tt) (py_get td "task_id" (JString "unknown"))
      | None => Ok tt
      end
  end.

(** [for record in records: ...] *)
Fixpoint for_records (records : list record) (registry : gset pykey)
    (task_data : option json) (batch_item_failures : list item_failure)
  : gset pykey * result (list item_failure) :=
  match records with
  | [] => (registry, Ok batch_item_failures)
  | r :: rest =>
      let '(registry', task_data', res) := try_record registry task_data r in
      match res with
      | Ok _ => for_records rest registry' task_data' batch_item_failures
      | Raise e =>
          match except_clause task_data' e with
          | Ok _ =>
              for_records rest registry' task_data'
                (batch_item_failures ++ [{| itemIdentifier := message_id r |}])
          | Raise e' => (registry', Raise e')
          end
      end
  end.

(** [lambda_handler(event, context)]: the registry after the call and the
    list under ["batchItemFailures"], or the exception that left the
    handler. *)
Definition lambda_handler (registry : gset pykey) (ev : event)
  : gset pykey * result (list item_failure) :=
  for_records (default [] (Records ev)) registry None [].

(** The decoded payload of a record, and the registry key of its task
    when the payload is a dict whose [task_id] (or the default) is
    hashable. *)
Definition payload (r : record) : option json :=
  json_loads (default "{}" (body r)).

Definition task_key (r : record) : option pykey :=
  match payload r with
  | Some (JObject members) =>
      match py_hash (default (JString "unknown") (dict_lookup members "task_id")) with
      | Ok k => Some k
      | Raise _ => None
      end
  | _ => None
  end.

(** A payload that is valid JSON but not an object. *)
Definition not_a_dict (v : json) : bool :=
  match v with JObject _ => false | _ => true end.

End Handler.

(** The event that carries the given records. *)
Definition batch (records : list record) : event :=
  {| Records := Some records |}.

(** A decoder given by a finite table of bodies, for running the handler
    on concrete events. *)
Definition loads_table (tbl : list (string * json)) (s : string) : option json :=
  dict_lookup tbl s.

End Processor.

(** ** The request model, [src/api/models.py] *)

Module Models.

(** [Literal["low", "medium", "high"]] *)
Inductive Priority : Type := low | medium | high.

Definition priority_name (p : Priority) : string :=
  match p with low => "low" | medium => "medium" | high => "high" end.

Definition priority_of_string (s : string) : option Priority :=
  if String.eqb s "low" then Some low
  else if String.eqb s "medium" then Some medium
  else if String.eqb s "high" then Some high
  else None.

Record TaskCreate : Type := {
  title : string;
  description : string;
  priority : Priority;
  due_date : option string
}.

Record TaskResponse : Type := {
  resp_task_id : string;
  resp_title : string;
  resp_description : string;
  resp_priority : Priority;
  resp_due_date : option string;
  resp_created_at : string;
  resp_status : string
}.

(** The kinds of error pydantic reports for the fields of [TaskCreate]. *)
Inductive error_type : Type :=
| missing
| string_type
| string_too_short
| string_too_long
| literal_error
| value_error
| model_attributes_type.

(** One entry of [exc.errors()]: the field and the kind of error. *)
Record error_detail : Type := { loc : string; type : error_type }.

(** [sanitize_string(cls, v)] *)
Definition sanitize_string (v : string) : string :=
  if PyStr.truthy v then PyStr.strip v else v.

Section DueDate.

(** [datetime.fromisoformat] on a [str]: [true] when it returns, [false]
    when it raises [ValueError]. *)
Variable fromisoformat : string -> bool.

(** The argument the validator hands to [datetime.fromisoformat]. *)
Definition iso_argument (v : string) : string :=
  PyStr.replace "Z"%char "+00:00" v.

(** [validate_due_date(cls, v)] *)
Definition validate_due_date (v : option string) : result (option string) :=
  match v with
  | Some s => if fromisoformat (iso_argument s) then Ok v else Raise ValueError
  | None => Ok v
  end.

(** A required [str] field with [min_length] and [max_length], followed by
    the field validator [sanitize_string].  A [field_validator] runs in
    mode ["after"], the default: the value it receives has passed the type
    and length checks of the field, and what it returns is stored without
    another check. *)
Definition str_field (min_length max_length : nat) (v : option json)
  : error_type + string :=
  match v with
  | None => inl missing
  | Some (JString s) =>
      if (String.length s <? min_length)%nat then inl string_too_short
      else if (max_length <? String.length s)%nat then inl string_too_long
      else inr (sanitize_string s)
  | Some _ => inl string_type
  end.

Definition priority_field (v : option json) : error_type + Priority :=
  match v with
  | None => inl missing
  | Some (JString s) =>
      match priority_of_string s with
      | Some p => inr p
      | None => inl literal_error
      end
  | Some _ => inl literal_error
  end.

(** An [Optional[str]] field with default [None], followed by the field
    validator [validate_due_date]; a default is stored as it is. *)
Definition due_date_field (v : option json) : error_type + option string :=
  match v with
  | None => inr None
  | Some JNull =>
      match validate_due_date None with
      | Ok d => inr d
      | Raise _ => inl value_error
      end
  | Some (JString s) =>
      match validate_due_date (Some s) with
      | Ok d => inr d
      | Raise _ => inl value_error
      end
  | Some _ => inl string_type
  end.

Definition field_errors {A} (name : string) (r : error_type + A)
  : list error_detail :=
  match r with
  | inl e => [{| loc := name; type := e |}]
  | inr _ => []
  end.

(** Validation of a request body against [TaskCreate]: the fields are
    checked in the order of their declaration and every error is
    reported. *)
Definition model_validate (body : json) : list error_detail + TaskCreate :=
  match body with
  | JObject members =>
      let t := str_field 1 200 (dict_lookup members "title") in
      let d := str_field 1 2000 (dict_lookup members "description") in
      let p := priority_field (dict_lookup members "priority") in
      let dd := due_date_field (dict_lookup members "due_date") in
      match t, d, p, dd with
      | inr t', inr d', inr p', inr dd' =>
          inr {| title := t'; description := d'; priority := p'; due_date := dd' |}
      | _, _, _, _ =>
          inl (field_errors "title" t ++ field_errors "description" d
               ++ field_errors "priority" p ++ field_errors "due_date" dd)
      end
  | _ => inl [{| loc := "body"; type := model_attributes_type |}]
  end.

(** Whether a request body carries a string [due_date] that
    [validate_due_date] rejects. *)
Definition due_date_unparseable (members : list (string * json)) : bool :=
  match dict_lookup members "due_date" with
  | Some (JString s) => negb (fromisoformat (iso_argument s))
  | _ => false
  end.

End DueDate.

(** A recogniser given by the finite list of the strings it accepts, for
    running the validators on concrete requests. *)
Definition accepts_table (accepted : list string) (s : string) : bool :=
  existsb (String.eqb s) accepted.

End Models.

(** ** The producer, [src/api/index.py] *)

Module Api.
Import Models.

Inductive content : Type :=
| JSON (j : json)
| Text (s : string).

Record Request : Type := {
  method : string;
  path : string;
  headers : list (string * string);
  json_body : option json
}.

Record Response : Type := { status_code : nat; body : content }.

(** The argument of [sqs_client.send_message].  [MessageBody] is the value
    handed to [json.dumps]. *)
Record SendMessage : Type := {
  QueueUrl : string;
  MessageBody : json;
  MessageGroupId : string;
  MessageDeduplicationId : string
}.

(** What [sqs_client.send_message] does: it returns a response, raises
    [botocore.exceptions.ClientError] (with the dict under ["Error"] of
    [e.response], when present, and [str(e)]), or raises another
    exception (with its type name and [str(e)]). *)
Inductive send_outcome : Type :=
| Sent (response : list (string * string))
| RaisesClientError (Error : option (list (string * string))) (str_e : string)
| RaisesException (type_name str_e : string).

(** The effects of a request, in the order they happen. *)
Inductive effect : Type :=
| Log (level message : string) (extra : list (string * json))
| SqsSend (m : SendMessage).

(** The outcome of the endpoint function. *)
Inductive endpoint_outcome : Type :=
| Return (t : TaskResponse)
| HTTPException (status_code : nat) (detail : string).

Definition HTTP_201_CREATED : nat := 201.
Definition HTTP_400_BAD_REQUEST : nat := 400.
Definition HTTP_403_FORBIDDEN : nat := 403.
Definition HTTP_500_INTERNAL_SERVER_ERROR : nat := 500.

Definition optional_string (o : option string) : json :=
  match o with Some s => JString s | None => JNull end.

(** [request.headers.get(name)]; header names arrive in lower case. *)
Definition headers_get (h : list (string * string)) (name : string)
  : option string :=
  dict_lookup h name.

(** The module-level settings read from the environment. *)
Record settings : Type := {
  QUEUE_URL : string;
  ENABLE_API_KEY_CHECK : bool;
  VALID_API_KEY : string
}.


Definition exempt_paths : list string :=
  ["/health"; "/docs"; "/redoc"; "/openapi.json"].

Definition forbidden (message : string) : Response :=
  {| status_code := HTTP_403_FORBIDDEN;
     body := JSON (JObject [("error", JString "Forbidden");
                            ("message", JString message)]) |}.

(** [api_key[:8] + "..." if len(api_key) > 8 else api_key] *)
Definition key_preview (api_key : string) : string :=
  if (8 <? String.length api_key)%nat then substring 0 8 api_key +:+ "..."
  else api_key.

Section Middleware.

Variable cfg : settings.

(** [validate_api_key(request, call_next)] *)
Definition validate_api_key (request : Request)
    (call_next : Request -> list effect * Response) : list effect * Response :=
  if existsb (String.eqb (path request)) exempt_paths then call_next request
  else if ENABLE_API_KEY_CHECK cfg then
    let api_key := headers_get (headers request) "x-api-key" in
    match api_key with
    | None | Some EmptyString => (* [if not api_key] *)
        ([Log "WARNING" "Missing API key"
            [("path", JString (path request)); ("method", JString (method request))]],
         forbidden "Missing API Key. Include x-api-key header.")
    | Some key =>
        if negb (String.eqb key (VALID_API_KEY cfg)) then
          ([Log "WARNING" "Invalid API key"
              [("path", JString (path request)); ("method", JString (method request));
               ("api_key_provided", JString (key_preview key))]],
           forbidden "Invalid API Key.")
        else
          let '(effects, response) := call_next request in
          (Log "DEBUG" "API key validated" [("path", JString (path request))]
             :: effects, response)
    end
  else call_next request.

End Middleware.

(** One entry of [exc.errors()], as far as the model keeps it. *)
Definition error_json (e : error_detail) : json :=
  JObject [("loc", JArray [JString "body"; JString (loc e)])].

(** Whether an entry of [exc.errors()] holds an exception object.  The
    entry for a field validator that raised [ValueError] carries that
    exception under ["ctx"]; the entries pydantic makes for its own checks
    hold numbers and strings only. *)
Definition holds_exception (e : error_detail) : bool :=
  match type e with
  | value_error => true
  | _ => false
  end.

(** [validation_exception_handler(request, exc)].  [JSONResponse] encodes
    its content with [json.dumps] when it is built; the handler passes
    [exc.errors()] as it is, so an entry that holds an exception object
    makes the handler raise [TypeError] after it has logged. *)
Definition validation_exception_handler (request_path : string)
    (errors : list error_detail) : list effect * result Response :=
  ([Log "WARNING" "Validation error"
      [("path", JString request_path); ("errors", JArray (error_json <$> errors))]],
   if existsb holds_exception errors then Raise TypeError
   else
     Ok {| status_code := HTTP_400_BAD_REQUEST;
           body := JSON (JObject [("error", JString "Validation Error");
                                  ("message", JString "Invalid request data");
                                  ("details", JArray (error_json <$> errors))]) |}).

(** The answer to an exception that leaves the application: the plain
    text of the framework's server-error middleware. *)
Definition internal_server_error : Response :=
  {| status_code := HTTP_500_INTERNAL_SERVER_ERROR;
     body := Text "Internal Server Error" |}.

(** The response the caller gets from a handler that returned or raised.
    The middleware [validate_api_key] has no [try]: an exception raised
    below it passes through unchanged. *)
Definition answered (r : list effect * result Response) : list effect * Response :=
  match r with
  | (effects, Ok response) => (effects, response)
  | (effects, Raise _) => (effects, internal_server_error)
  end.

(** [http_exception_handler(request, exc)] *)
Definition http_exception_handler (request_path : string) (code : nat)
    (detail : string) : list effect * Response :=
  ([Log "ERROR" "HTTP error"
      [("path", JString request_path); ("status_code", JInt (Z.of_nat code));
       ("detail", JString detail)]],
   {| status_code := code;
      body := JSON (JObject [("error", JString "HTTP Error");
                             ("message", JString detail)]) |}).

Definition task_response_json (t : TaskResponse) : json :=
  JObject [("task_id", JString (resp_task_id t));
           ("title", JString (resp_title t));
           ("description", JString (resp_description t));
           ("priority", JString (priority_name (resp_priority t)));
           ("due_date", optional_string (resp_due_date t));
           ("created_at", JString (resp_created_at t));
           ("status", JString (resp_status t))].

Section Endpoint.

Variable cfg : settings.
(** The behaviour of the queue client. *)
Variable send_message : SendMessage -> send_outcome.
(** [str(uuid.uuid4())] and [datetime.now(timezone.utc).isoformat()] as
    drawn for this request. *)
Variable task_id created_at : string.

(** The keyword arguments of the call [sqs_client.send_message(...)]. *)
Definition queue_message (task : TaskCreate) : SendMessage :=
  let message_body :=
    JObject [("task_id", JString task_id);
             ("title", JString (title task));
             ("description", JString (description task));
             ("priority", JString (priority_name (priority task)));
             ("due_date", optional_string (due_date task));
             ("created_at", JString created_at);
             ("status", JString "queued")] in
  {| QueueUrl := QUEUE_URL cfg;
     MessageBody := message_body;
     MessageGroupId := "tasks";
     MessageDeduplicationId := task_id |}.

(** [create_task(task)] *)
Definition create_task (task : TaskCreate) : list effect * endpoint_outcome :=
  let started :=
    Log "INFO" "Creating new task"
      [("task_id", JString task_id); ("title", JString (title task));
       ("priority", JString (priority_name (priority task)))] in
  let m := queue_message task in
  match send_message m with
  | Sent response =>
      ([started; SqsSend m;
        Log "INFO" "Task queued successfully"
          [("task_id", JString task_id);
           ("message_id", optional_string (dict_lookup response "MessageId"));
           ("sequence_number", optional_string (dict_lookup response "SequenceNumber"))]],
       Return {| resp_task_id := task_id;
                 resp_title := title task;
                 resp_description := description task;
                 resp_priority := priority task;
                 resp_due_date := due_date task;
                 resp_created_at := created_at;
                 resp_status := "queued" |})
  | RaisesClientError err str_e =>
      let error_code := default "Unknown" (dict_lookup (default [] err) "Code") in
      let error_message := default str_e (dict_lookup (default [] err) "Message") in
      ([started; SqsSend m;
        Log "ERROR" "Failed to send message to SQS"
          [("task_id", JString task_id); ("error_code", JString error_code);
           ("error_message", JString error_message)]],
       HTTPException HTTP_500_INTERNAL_SERVER_ERROR
         ("Failed to queue task: " +:+ error_message))
  | RaisesException type_name str_e =>
      ([started; SqsSend m;
        Log "ERROR" "Unexpected error creating task"
          [("task_id", JString task_id); ("error", JString str_e);
           ("error_type", JString type_name)]],
       HTTPException HTTP_500_INTERNAL_SERVER_ERROR
         "An unexpected error occurred while creating the task")
  end.

Variable fromisoformat : string -> bool.

(** [POST /tasks]: the body is validated against [TaskCreate] before the
    endpoint function is called; the result or the exception is turned into
    the response by the exception handlers, and an exception of a handler
    by the server-error middleware. *)
Definition post_tasks (request : Request) : list effect * Response :=
  match json_body request with
  | None =>
      answered (validation_exception_handler (path request)
                  [{| loc := "body"; type := missing |}])
  | Some b =>
      match model_validate fromisoformat b with
      | inl errors =>
          answered (validation_exception_handler (path request) errors)
      | inr task =>
          let '(effects, outcome) := create_task task in
          match outcome with
          | Return t =>
              (effects,
               {| status_code := HTTP_201_CREATED;
                  body := JSON (task_response_json t) |})
          | HTTPException code detail =>
              let '(effects', response) :=
                http_exception_handler (path request) code detail in
              (effects ++ effects', response)
          end
      end
  end.

(** The application on the route [/tasks]: the middleware, then the
    route. *)
Definition submit (request : Request) : list effect * Response :=
  validate_api_key cfg request post_tasks.

End Endpoint.

(** The messages handed to the queue client during a request. *)
Definition sent (effects : list effect) : list SendMessage :=
  omap (fun e => match e with SqsSend m => Some m | Log _ _ _ => None end) effects.

(** [health_check()]; [timestamp] is
    [datetime.now(timezone.utc).isoformat()] as read for this request. *)
Definition health_check (timestamp : string) : list effect * Response :=
  ([Log "DEBUG" "Health check performed" [("timestamp", JString timestamp)]],
   {| status_code := 200;
      body := JSON (JObject [("status", JString "healthy");
                             ("timestamp", JString timestamp)]) |}).

End Api.

(** ** Sample events

    The bodies used by the unit tests of the consumer, with the values
    [json.loads] returns on them. *)

Module Samples.
Import PyStr Processor.

(** The text [{"task_id": "<tid>"}]. *)
Definition task_body (tid : string) : string :=
  "{" +:+ quoted "task_id" +:+ ": " +:+ quoted tid +:+ "}".

(** The text [{"title": "Test Task"}], a task without [task_id]. *)
Definition untagged_body : string :=
  "{" +:+ quoted "title" +:+ ": " +:+ quoted "Test Task" +:+ "}".

Definition invalid_body : string := "invalid json{{{".

Definition loads : string -> option json :=
  loads_table
    [ (task_body "task-1", JObject [("task_id", JString "task-1")]);
      (task_body "task-2", JObject [("task_id", JString "task-2")]);
      (untagged_body, JObject [("title", JString "Test Task")]);
      ("{}", JObject []);
      ("[]", JArray []) ].

Definition sqs_record (mid text : string) : record :=
  {| messageId := Some mid;
     receiptHandle := Some "test-receipt-handle";
     body := Some text;
     attributes := Some [("MessageGroupId", "tasks"); ("SequenceNumber", "1")] |}.

Definition good1 : record := sqs_record "msg-1" (task_body "task-1").
Definition good2 : record := sqs_record "msg-2" (task_body "task-2").
Definition poison : record := sqs_record "msg-bad" invalid_body.
Definition untagged1 : record := sqs_record "msg-u1" untagged_body.
Definition untagged2 : record := sqs_record "msg-u2" "{}".
Definition array_record : record := sqs_record "msg-arr" "[]".

End Samples.

(** ** Sample requests

    The requests of the unit tests of the API, with the behaviour of
    [datetime.fromisoformat] on their dates. *)

Module ApiSamples.
Import Models Api.

Definition fromisoformat : string -> bool :=
  accepts_table ["2026-01-15T12:00:00+00:00"; "2026-01-15T12:00:00+05:00"].

Definition open_cfg : settings :=
  {| QUEUE_URL := "https://sqs.us-east-1.amazonaws.com/123456789012/tasks.fifo";
     ENABLE_API_KEY_CHECK := false;
     VALID_API_KEY := "test-api-key-12345" |}.

Definition gated_cfg : settings :=
  {| QUEUE_URL := "https://sqs.us-east-1.amazonaws.com/123456789012/tasks.fifo";
     ENABLE_API_KEY_CHECK := true;
     VALID_API_KEY := "test-api-key-12345" |}.

Definition task_json (t d p : string) (due : option string) : json :=
  JObject ([("title", JString t); ("description", JString d);
            ("priority", JString p)]
           ++ match due with Some s => [("due_date", JString s)] | None => [] end).

Definition post (h : list (string * string)) (b : json) : Request :=
  {| method := "POST"; path := "/tasks"; headers := h; json_body := Some b |}.

Definition valid_task : json :=
  task_json "Test Task" "Test Description" "high" (Some "2026-01-15T12:00:00Z").

Definition queue_accepts (m : SendMessage) : send_outcome :=
  Sent [("MessageId", "9f2c1a"); ("SequenceNumber", "1")].

Definition access_denied : string :=
  "Access to the resource https://sqs.us-east-1.amazonaws.com/ is denied.".

Definition queue_denies (m : SendMessage) : send_outcome :=
  RaisesClientError
    (Some [("Code", "AccessDenied"); ("Message", access_denied)])
    ("An error occurred (AccessDenied) when calling the SendMessage operation: "
       +:+ access_denied).

Definition queue_unreachable (m : SendMessage) : send_outcome :=
  RaisesException "EndpointConnectionError"
    "Could not connect to the endpoint URL".

Definition sample_id : string := "550e8400-e29b-41d4-a716-446655440000".
Definition sample_time : string := "2026-01-10T12:00:00+00:00".

End ApiSamples.

(** ** Further sample events *)

Module MoreSamples.
Import PyStr Processor.

(** The text [{"task_id": [1]}]: a task id that is a list. *)
Definition list_id_body : string :=
  "{" +:+ quoted "task_id" +:+ ": [1]}".

(** The text [{"task_id": 7}]. *)
Definition int_id_body : string :=
  "{" +:+ quoted "task_id" +:+ ": 7}".

Definition loads : string -> option json :=
  loads_table
    [ (Samples.task_body "task-1", JObject [("task_id", JString "task-1")]);
      (Samples.task_body "task-2", JObject [("task_id", JString "task-2")]);
      (list_id_body, JObject [("task_id", JArray [JInt 1])]);
      (int_id_body, JObject [("task_id", JInt 7)]);
      ("{}", JObject []);
      ("[]", JArray []);
      ("null", JNull) ].

Definition list_id_record : record := Samples.sqs_record "msg-list" list_id_body.
Definition null_record : record := Samples.sqs_record "msg-null" "null".

(** A record without the keys [messageId] and [body]. *)
Definition bare_record : record :=
  {| messageId := None; receiptHandle := None; body := None; attributes := None |}.

(** The text [json.dumps] produces for the message of the sample task. *)
Definition queued_text : string :=
  "{" +:+ quoted "task_id" +:+ ": " +:+ quoted ApiSamples.sample_id +:+ ", "
      +:+ quoted "title" +:+ ": " +:+ quoted "Test Task" +:+ ", "
      +:+ quoted "description" +:+ ": " +:+ quoted "Test Description" +:+ ", "
      +:+ quoted "priority" +:+ ": " +:+ quoted "high" +:+ ", "
      +:+ quoted "due_date" +:+ ": " +:+ quoted "2026-01-15T12:00:00Z" +:+ ", "
      +:+ quoted "created_at" +:+ ": " +:+ quoted ApiSamples.sample_time +:+ ", "
      +:+ quoted "status" +:+ ": " +:+ quoted "queued" +:+ "}".

Definition sample_task : Models.TaskCreate :=
  {| Models.title := "Test Task"; Models.description := "Test Description";
     Models.priority := Models.high;
     Models.due_date := Some "2026-01-15T12:00:00Z" |}.

Definition sample_message : Api.SendMessage :=
  Api.queue_message ApiSamples.open_cfg ApiSamples.sample_id
    ApiSamples.sample_time sample_task.

(** [json.dumps] and [json.loads] on the message of the sample task. *)
Definition dumps (v : json) : string := queued_text.

Definition loads_queued : string -> option json :=
  loads_table [ (queued_text, Api.MessageBody sample_message) ].

End MoreSamples.

(** * Properties of the consumer *)

Module ProcessorFacts.
Import Processor.

Section Facts.
Variable json_loads : string -> option json.

Local Abbreviation for_records := (for_records json_loads).
Local Abbreviation lambda_handler := (lambda_handler json_loads).
Local Abbreviation payload := (payload json_loads).
Local Abbreviation task_key := (task_key json_loads).

Lemma insert_present (k : pykey) (registry : gset pykey) :
  k ∈ registry -> {[k]} ∪ registry = registry.
Proof. intros Hin. apply subseteq_union_1_L. by apply singleton_subseteq_l. Qed.

Lemma py_hash_raises v e : py_hash v = Raise e -> e = TypeError.
Proof. destruct v; cbn; congruence. Qed.

Lemma process_task_key registry members k :
  py_hash (default (JString "unknown") (dict_lookup members "task_id")) = Ok k ->
  process_task registry (JObject members) = ({[k]} ∪ registry, Ok tt).
Proof.
  intros Hk. unfold process_task. cbn [py_get]. rewrite Hk.
  destruct (decide (k ∈ registry)) as [Hin|Hin]; [|reflexivity].
  by rewrite insert_present.
Qed.

(** The binding of the local [task_data] on entry never matters. *)
Lemma for_records_locals records :
  forall registry loc loc' fs,
    for_records records registry loc fs = for_records records registry loc' fs.
Proof.
  induction records as [|r rest IH]; intros registry loc loc' fs; [reflexivity|].
  cbn [Processor.for_records]. unfold try_record.
  destruct (json_loads (default "{}" (body r))) as [td|]; [reflexivity|].
  cbn [except_clause]. apply IH.
Qed.

Lemma for_records_registers r rest registry loc fs k :
  task_key r = Some k ->
  for_records (r :: rest) registry loc fs
  = for_records rest ({[k]} ∪ registry) None fs.
Proof.
  unfold Processor.task_key, Processor.payload. intros Hk.
  cbn [Processor.for_records]. unfold try_record.
  destruct (json_loads (default "{}" (body r))) as [[| | | | |members]|]; try discriminate.
  cbn [py_get].
  destruct (py_hash _) as [k'|] eqn:Hh; [|discriminate].
  injection Hk as ->.
  rewrite (process_task_key _ _ _ Hh). apply for_records_locals.
Qed.

Lemma for_records_malformed r rest registry loc fs :
  payload r = None ->
  for_records (r :: rest) registry loc fs
  = for_records rest registry None (fs ++ [{| itemIdentifier := message_id r |}]).
Proof.
  unfold Processor.payload. intros Hp.
  cbn [Processor.for_records]. unfold try_record. rewrite Hp.
  cbn [except_clause]. apply for_records_locals.
Qed.

Lemma for_records_unhashable r rest registry loc fs members :
  payload r = Some (JObject members) ->
  task_key r = None ->
  for_records (r :: rest) registry loc fs
  = for_records rest registry None (fs ++ [{| itemIdentifier := message_id r |}]).
Proof.
  unfold Processor.task_key, Processor.payload. intros Hp Hk. rewrite Hp in Hk.
  cbn [Processor.for_records]. unfold try_record. rewrite Hp.
  cbn [py_get]. unfold process_task. cbn [py_get].
  destruct (py_hash _) as [k'|e] eqn:Hh; [discriminate|].
  apply py_hash_raises in Hh as ->.
  cbn [except_clause rmap rbind py_get]. apply for_records_locals.
Qed.

Lemma for_records_not_a_dict r rest registry loc fs v :
  payload r = Some v ->
  not_a_dict v = true ->
  for_records (r :: rest) registry loc fs = (registry, Raise AttributeError).
Proof.
  unfold Processor.payload. intros Hp Hv.
  cbn [Processor.for_records]. unfold try_record. rewrite Hp.
  destruct v; try discriminate; reflexivity.
Qed.

(** The four ways one iteration can go. *)
Lemma record_cases r :
  (exists k, task_key r = Some k)
  \/ payload r = None
  \/ (exists members, payload r = Some (JObject members) /\ task_key r = None)
  \/ (exists v, payload r = Some v /\ not_a_dict v = true).
Proof.
  unfold Processor.task_key.
  destruct (payload r) as [v|] eqn:Hp; [|by right; left].
  destruct v; try (right; right; right; eexists; split; [reflexivity|reflexivity]).
  destruct (py_hash _); [left; eauto|].
  right; right; left; eauto.
Qed.

Lemma for_records_app l1 :
  forall l2 registry loc fs,
    for_records (l1 ++ l2) registry loc fs
    = match for_records l1 registry loc fs with
      | (registry1, Ok fs1) => for_records l2 registry1 None fs1
      | (registry1, Raise e) => (registry1, Raise e)
      end.
Proof.
  induction l1 as [|r rest IH]; intros l2 registry loc fs.
  - cbn. apply for_records_locals.
  - rewrite <- app_comm_cons.
    destruct (record_cases r) as [[k Hk]|[Hp|[[m [Hp Hk]]|[v [Hp Hv]]]]].
    + rewrite !(for_records_registers _ _ _ _ _ _ Hk). apply IH.
    + rewrite !(for_records_malformed _ _ _ _ _ Hp). apply IH.
    + rewrite !(for_records_unhashable _ _ _ _ _ _ Hp Hk). apply IH.
    + by rewrite !(for_records_not_a_dict _ _ _ _ _ _ Hp Hv).
Qed.

(** Failures recorded before the loop are a prefix of its result. *)
Lemma for_records_failures records :
  forall registry loc fs,
    for_records records registry loc fs
    = (fst (for_records records registry loc []),
       rmap (app fs) (snd (for_records records registry loc []))).
Proof.
  induction records as [|r rest IH]; intros registry loc fs.
  - cbn. by rewrite app_nil_r.
  - destruct (record_cases r) as [[k Hk]|[Hp|[[m [Hp Hk]]|[v [Hp Hv]]]]].
    + rewrite !(for_records_registers _ _ _ _ _ _ Hk). apply IH.
    + rewrite !(for_records_malformed _ _ _ _ _ Hp).
      rewrite (IH _ _ (app fs _)), (IH _ _ (app [] _)). f_equal.
      destruct (snd _); cbn; [|reflexivity]. by rewrite <- app_assoc.
    + rewrite !(for_records_unhashable _ _ _ _ _ _ Hp Hk).
      rewrite (IH _ _ (app fs _)), (IH _ _ (app [] _)). f_equal.
      destruct (snd _); cbn; [|reflexivity]. by rewrite <- app_assoc.
    + by rewrite !(for_records_not_a_dict _ _ _ _ _ _ Hp Hv).
Qed.

Lemma lambda_handler_batch records registry :
  lambda_handler registry (batch records) = for_records records registry None [].
Proof. reflexivity. Qed.

(** A batch whose records all carry a registry key. *)
Lemma for_records_keys records :
  forall keys registry fs,
    task_key <$> records = Some <$> keys ->
    for_records records registry None fs = (list_to_set keys ∪ registry, Ok fs).
Proof.
  induction records as [|r rest IH]; intros [|k keys] registry fs Hk;
    try discriminate.
  - cbn. f_equal. set_solver.
  - injection Hk as Hr Hrest.
    rewrite (for_records_registers _ _ _ _ _ _ Hr), (IH _ _ _ Hrest).
    f_equal. set_solver.
Qed.

(** What the loop returns or raises, whatever the batch. *)
Lemma for_records_outcome records :
  forall registry loc fs0,
    match for_records records registry loc fs0 with
    | (_, Ok fs) =>
        exists new : list item_failure, fs = fs0 ++ new
          /\ sublist (itemIdentifier <$> new) (message_id <$> records)
    | (_, Raise e) =>
        e = AttributeError
        /\ exists r v, r ∈ records /\ payload r = Some v /\ not_a_dict v = true
    end.
Proof.
  induction records as [|r rest IH]; intros registry loc fs0.
  - cbn. exists []. split; [by rewrite app_nil_r|constructor].
  - destruct (record_cases r) as [[k Hk]|[Hp|[[m [Hp Hk]]|[v [Hp Hv]]]]].
    + rewrite (for_records_registers _ _ _ _ _ _ Hk).
      specialize (IH ({[k]} ∪ registry) None fs0).
      destruct (for_records rest _ None fs0) as [reg' [fs|e]].
      * destruct IH as (new & -> & Hsub). exists new. split; [done|].
        cbn. by apply sublist_cons.
      * destruct IH as (-> & r' & v & Hin & Hp' & Hv'). split; [done|].
        exists r', v. split; [by right|done].
    + rewrite (for_records_malformed _ _ _ _ _ Hp).
      specialize (IH registry None (fs0 ++ [{| itemIdentifier := message_id r |}])).
      destruct (for_records rest _ None _) as [reg' [fs|e]].
      * destruct IH as (new & -> & Hsub).
        exists ({| itemIdentifier := message_id r |} :: new).
        split; [by rewrite <- app_assoc|]. cbn. by apply sublist_skip.
      * destruct IH as (-> & r' & v & Hin & Hp' & Hv'). split; [done|].
        exists r', v. split; [by right|done].
    + rewrite (for_records_unhashable _ _ _ _ _ _ Hp Hk).
      specialize (IH registry None (fs0 ++ [{| itemIdentifier := message_id r |}])).
      destruct (for_records rest _ None _) as [reg' [fs|e]].
      * destruct IH as (new & -> & Hsub).
        exists ({| itemIdentifier := message_id r |} :: new).
        split; [by rewrite <- app_assoc|]. cbn. by apply sublist_skip.
      * destruct IH as (-> & r' & v & Hin & Hp' & Hv'). split; [done|].
        exists r', v. split; [by right|done].
    + rewrite (for_records_not_a_dict _ _ _ _ _ _ Hp Hv). split; [done|].
      exists r, v. split; [by left|done].
Qed.

Lemma for_records_grows records :
  forall registry loc fs, registry ⊆ fst (for_records records registry loc fs).
Proof.
  induction records as [|r rest IH]; intros registry loc fs; [done|].
  destruct (record_cases r) as [[k Hk]|[Hp|[[m [Hp Hk]]|[v [Hp Hv]]]]].
  - rewrite (for_records_registers _ _ _ _ _ _ Hk).
    trans ({[k]} ∪ registry); [set_solver|apply IH].
  - rewrite (for_records_malformed _ _ _ _ _ Hp). apply IH.
  - rewrite (for_records_unhashable _ _ _ _ _ _ Hp Hk). apply IH.
  - by rewrite (for_records_not_a_dict _ _ _ _ _ _ Hp Hv).
Qed.

End Facts.
End ProcessorFacts.

Module ProcessorExamples.
Import Processor.

(** The partial-failure test of [tests/unit/test_processor.py]. *)
Example partial_failure_run :
  lambda_handler Samples.loads ∅ (batch [Samples.good1; Samples.poison])
  = ({[KStr "task-1"]}, Ok [{| itemIdentifier := "msg-bad" |}]).
Proof. vm_compute. reflexivity. Qed.

(** A payload that is valid JSON but not an object ends the handler with
    [AttributeError]: the entry after it is not processed and no failure
    list is returned. *)
Example array_payload_run :
  lambda_handler Samples.loads ∅
    (batch [Samples.good1; Samples.array_record; Samples.good2])
  = ({[KStr "task-1"]}, Raise AttributeError).
Proof. vm_compute. reflexivity. Qed.

End ProcessorExamples.

Module ProcessorClaims.
Import Processor ProcessorFacts.

(** C1. A batch made of one well-formed entry whose task id [k] is not yet
    registered and one entry whose body is not valid JSON, in either
    order: the handler returns, [k] is in the registry afterwards, and the
    failure list holds exactly the message id of the malformed entry.  A
    malformed entry at the head of any batch only prepends its own failure
    record: the rest of the batch is processed as it would be alone. *)
Theorem partial_batch_failure json_loads registry good bad k rest :
  task_key json_loads good = Some k ->
  k ∉ registry ->
  payload json_loads bad = None ->
  let failure := {| itemIdentifier := message_id bad |} in
  lambda_handler json_loads registry (batch [good; bad])
    = ({[k]} ∪ registry, Ok [failure])
  /\ lambda_handler json_loads registry (batch [bad; good])
    = ({[k]} ∪ registry, Ok [failure])
  /\ k ∈ fst (lambda_handler json_loads registry (batch [good; bad]))
  /\ lambda_handler json_loads registry (batch (bad :: rest))
    = (fst (lambda_handler json_loads registry (batch rest)),
       rmap (cons failure) (snd (lambda_handler json_loads registry (batch rest)))).
Proof.
  intros Hk Hnew Hbad failure. rewrite !lambda_handler_batch.
  assert (for_records json_loads [good; bad] registry None []
          = ({[k]} ∪ registry, Ok [failure])) as Hgb.
  { rewrite (for_records_registers _ _ _ _ _ _ _ Hk).
    by rewrite (for_records_malformed _ _ _ _ _ _ Hbad). }
  repeat split.
  - exact Hgb.
  - rewrite (for_records_malformed _ _ _ _ _ _ Hbad).
    by rewrite (for_records_registers _ _ _ _ _ _ _ Hk).
  - rewrite Hgb. set_solver.
  - rewrite (for_records_malformed _ _ _ _ _ _ Hbad).
    apply (for_records_failures json_loads rest registry None [failure]).
Qed.

Lemma partial_batch_failure_witness :
  let failure := {| itemIdentifier := "msg-bad" |} in
  lambda_handler Samples.loads ∅ (batch [Samples.good1; Samples.poison])
    = ({[KStr "task-1"]} ∪ ∅, Ok [failure])
  /\ lambda_handler Samples.loads ∅ (batch [Samples.poison; Samples.good1])
    = ({[KStr "task-1"]} ∪ ∅, Ok [failure])
  /\ KStr "task-1"
      ∈ fst (lambda_handler Samples.loads ∅ (batch [Samples.good1; Samples.poison]))
  /\ lambda_handler Samples.loads ∅ (batch [Samples.poison; Samples.good2])
    = (fst (lambda_handler Samples.loads ∅ (batch [Samples.good2])),
       rmap (cons failure)
         (snd (lambda_handler Samples.loads ∅ (batch [Samples.good2])))).
Proof.
  apply (partial_batch_failure Samples.loads ∅ Samples.good1 Samples.poison
           (KStr "task-1") [Samples.good2]).
  - reflexivity.
  - apply not_elem_of_empty.
  - reflexivity.
Defined.

(** C2. An entry whose task id is already in the registry at the moment
    it is processed changes nothing: the registry and the failure list
    after it are the ones before it, and the whole batch ends as the batch
    without that entry does. *)
Theorem duplicate_is_noop json_loads registry pre e post k registry1 fs1 :
  for_records json_loads pre registry None [] = (registry1, Ok fs1) ->
  task_key json_loads e = Some k ->
  k ∈ registry1 ->
  for_records json_loads (pre ++ [e]) registry None [] = (registry1, Ok fs1)
  /\ size registry1 = size (fst (for_records json_loads [e] registry1 None fs1))
  /\ lambda_handler json_loads registry (batch (pre ++ e :: post))
    = lambda_handler json_loads registry (batch (pre ++ post)).
Proof.
  intros Hpre Hk Hin.
  assert (forall rest, for_records json_loads (e :: rest) registry1 None fs1
                       = for_records json_loads rest registry1 None fs1) as He.
  { intros rest. rewrite (for_records_registers _ _ _ _ _ _ _ Hk).
    by rewrite (insert_present _ _ Hin). }
  repeat split.
  - by rewrite for_records_app, Hpre, He.
  - by rewrite He.
  - rewrite !lambda_handler_batch, !for_records_app, Hpre. apply He.
Qed.

Lemma duplicate_is_noop_witness :
  for_records Samples.loads [Samples.good1; Samples.good1] ∅ None []
    = ({[KStr "task-1"]}, Ok [])
  /\ size ({[KStr "task-1"]} : gset pykey)
     = size (fst (for_records Samples.loads [Samples.good1] {[KStr "task-1"]} None []))
  /\ lambda_handler Samples.loads ∅
       (batch ([Samples.good1] ++ Samples.good1 :: [Samples.poison]))
    = lambda_handler Samples.loads ∅ (batch ([Samples.good1] ++ [Samples.poison])).
Proof.
  apply (duplicate_is_noop Samples.loads ∅ [Samples.good1] Samples.good1
           [Samples.poison] (KStr "task-1") {[KStr "task-1"]} []).
  - vm_compute. reflexivity.
  - reflexivity.
  - apply elem_of_singleton. reflexivity.
Defined.

(** C3. A batch of N entries whose bodies decode to tasks with pairwise
    distinct ids, none of them registered: the handler returns the empty
    failure list and the registry has exactly N more elements.  The empty
    batch returns the empty failure list and leaves the registry as it
    is. *)
Theorem distinct_batch_registers_all json_loads registry records keys :
  task_key json_loads <$> records = Some <$> keys ->
  NoDup keys ->
  (forall k, k ∈ keys -> k ∉ registry) ->
  snd (lambda_handler json_loads registry (batch records)) = Ok []
  /\ fst (lambda_handler json_loads registry (batch records))
     = list_to_set keys ∪ registry
  /\ size (fst (lambda_handler json_loads registry (batch records)))
     = size registry + length records
  /\ lambda_handler json_loads registry (batch []) = (registry, Ok [])
  /\ lambda_handler json_loads registry {| Records := None |} = (registry, Ok []).
Proof.
  intros Hk Hnd Hnew.
  rewrite lambda_handler_batch, (for_records_keys _ _ _ _ _ Hk). cbn [fst snd].
  repeat split.
  rewrite size_union by set_solver.
  rewrite size_list_to_set by done.
  apply (f_equal length) in Hk. rewrite !length_fmap in Hk. lia.
Qed.

Lemma distinct_batch_registers_all_witness :
  snd (lambda_handler Samples.loads ∅ (batch [Samples.good1; Samples.good2])) = Ok []
  /\ fst (lambda_handler Samples.loads ∅ (batch [Samples.good1; Samples.good2]))
     = list_to_set [KStr "task-1"; KStr "task-2"] ∪ ∅
  /\ size (fst (lambda_handler Samples.loads ∅ (batch [Samples.good1; Samples.good2])))
     = size (∅ : gset pykey) + length [Samples.good1; Samples.good2]
  /\ lambda_handler Samples.loads ∅ (batch []) = (∅, Ok [])
  /\ lambda_handler Samples.loads ∅ {| Records := None |} = (∅, Ok []).
Proof.
  apply (distinct_batch_registers_all Samples.loads ∅
           [Samples.good1; Samples.good2] [KStr "task-1"; KStr "task-2"]).
  - reflexivity.
  - apply (bool_decide_unpack _). vm_compute. exact I.
  - intros k _. apply not_elem_of_empty.
Defined.

(** C5. An entry whose payload is an object without a [task_id] member is
    processed under the key ["unknown"]: it is not reported as a failure,
    the key is in the registry afterwards, and a later entry without a
    [task_id] finds the key there and adds nothing. *)
Theorem missing_task_id_uses_sentinel json_loads registry r members r' members' rest :
  payload json_loads r = Some (JObject members) ->
  dict_lookup members "task_id" = None ->
  payload json_loads r' = Some (JObject members') ->
  dict_lookup members' "task_id" = None ->
  task_key json_loads r = Some (KStr "unknown")
  /\ process_task registry (JObject members)
     = ({[KStr "unknown"]} ∪ registry, Ok tt)
  /\ lambda_handler json_loads registry (batch [r])
     = ({[KStr "unknown"]} ∪ registry, Ok [])
  /\ lambda_handler json_loads registry (batch [r; r'])
     = ({[KStr "unknown"]} ∪ registry, Ok [])
  /\ lambda_handler json_loads registry (batch (r :: rest))
     = lambda_handler json_loads ({[KStr "unknown"]} ∪ registry) (batch rest).
Proof.
  intros Hp Hm Hp' Hm'.
  assert (forall x m, payload json_loads x = Some (JObject m) ->
            dict_lookup m "task_id" = None ->
            task_key json_loads x = Some (KStr "unknown")) as Hkey.
  { intros x m Hx Hl. unfold task_key. by rewrite Hx, Hl. }
  pose proof (Hkey _ _ Hp Hm) as Hk. pose proof (Hkey _ _ Hp' Hm') as Hk'.
  rewrite !lambda_handler_batch. repeat split.
  - exact Hk.
  - apply process_task_key. by rewrite Hm.
  - by rewrite (for_records_registers _ _ _ _ _ _ _ Hk).
  - rewrite (for_records_registers _ _ _ _ _ _ _ Hk).
    rewrite (for_records_registers _ _ _ _ _ _ _ Hk'). cbn. f_equal. set_solver.
  - by rewrite (for_records_registers _ _ _ _ _ _ _ Hk).
Qed.

Lemma missing_task_id_uses_sentinel_witness :
  task_key Samples.loads Samples.untagged1 = Some (KStr "unknown")
  /\ process_task ∅ (JObject [("title", JString "Test Task")])
     = ({[KStr "unknown"]} ∪ ∅, Ok tt)
  /\ lambda_handler Samples.loads ∅ (batch [Samples.untagged1])
     = ({[KStr "unknown"]} ∪ ∅, Ok [])
  /\ lambda_handler Samples.loads ∅ (batch [Samples.untagged1; Samples.untagged2])
     = ({[KStr "unknown"]} ∪ ∅, Ok [])
  /\ lambda_handler Samples.loads ∅ (batch (Samples.untagged1 :: [Samples.poison]))
     = lambda_handler Samples.loads ({[KStr "unknown"]} ∪ ∅) (batch [Samples.poison]).
Proof.
  apply (missing_task_id_uses_sentinel Samples.loads ∅
           Samples.untagged1 [("title", JString "Test Task")]
           Samples.untagged2 [] [Samples.poison]); reflexivity.
Defined.

(** C7. The registry is empty when the consumer process starts, and
    whatever the batch, and whether the handler returns or raises, every
    id registered before the call is still registered after it. *)
Theorem registry_monotone json_loads registry ev task_data :
  processed_tasks = ∅
  /\ registry ⊆ fst (process_task registry task_data)
  /\ registry ⊆ fst (lambda_handler json_loads registry ev).
Proof.
  repeat split.
  - unfold process_task.
    destruct (py_get _ _ _) as [tid|]; [|done].
    destruct (py_hash tid) as [k|]; [|done].
    destruct (decide _); cbn [fst]; set_solver.
  - apply for_records_grows.
Qed.

(** The failure records a returning loop adds are, in order, those of the
    records without a registry key. *)
Lemma for_records_failed json_loads records :
  forall registry loc fs0 registry' fs,
    for_records json_loads records registry loc fs0 = (registry', Ok fs) ->
    itemIdentifier <$> fs
    = (itemIdentifier <$> fs0)
      ++ ((fun r => default "unknown" (messageId r))
            <$> filter (fun r => task_key json_loads r = None) records).
Proof.
  induction records as [|r rest IH]; intros registry loc fs0 registry' fs.
  - cbn. intros [= _ <-]. by rewrite app_nil_r.
  - destruct (record_cases json_loads r)
      as [[k Hk]|[Hp|[[m [Hp Hk]]|[v [Hp Hv]]]]].
    + rewrite (for_records_registers _ _ _ _ _ _ _ Hk).
      rewrite filter_cons_False by (rewrite Hk; discriminate). apply IH.
    + rewrite (for_records_malformed _ _ _ _ _ _ Hp).
      assert (task_key json_loads r = None) as Hk.
      { unfold task_key. by rewrite Hp. }
      rewrite filter_cons_True by done. intros H. apply IH in H.
      rewrite H, fmap_app, <- app_assoc. reflexivity.
    + rewrite (for_records_unhashable _ _ _ _ _ _ _ Hp Hk).
      rewrite filter_cons_True by done. intros H. apply IH in H.
      rewrite H, fmap_app, <- app_assoc. reflexivity.
    + rewrite (for_records_not_a_dict _ _ _ _ _ _ _ Hp Hv). discriminate.
Qed.

(** C10. When the handler returns, the identifiers of its failure records
    are, in order, the [messageId] values (["unknown"] for a record
    without one) of a subsequence of the batch: at most one failure record
    per entry, in batch order, none for a message that is not in the
    batch.  They are exactly those of the entries that could not be
    decoded or keyed.  When the handler does not return, it raised
    [AttributeError] on an entry whose payload is valid JSON but not an
    object. *)
Theorem failures_are_batch_entries json_loads registry ev :
  match lambda_handler json_loads registry ev with
  | (_, Ok failures) =>
      sublist (itemIdentifier <$> failures)
              ((fun r => default "unknown" (messageId r))
                 <$> default [] (Records ev))
      /\ itemIdentifier <$> failures
         = (fun r => default "unknown" (messageId r))
             <$> filter (fun r => task_key json_loads r = None)
                   (default [] (Records ev))
  | (_, Raise e) =>
      e = AttributeError
      /\ exists r v, r ∈ default [] (Records ev)
           /\ payload json_loads r = Some v /\ not_a_dict v = true
  end.
Proof.
  unfold lambda_handler.
  pose proof (for_records_outcome json_loads (default [] (Records ev))
                registry None []) as H.
  pose proof (for_records_failed json_loads (default [] (Records ev))
                registry None []) as Hf.
  destruct (for_records _ _ _ _ _) as [reg' [fs|e]]; [|exact H].
  destruct H as (new & -> & Hsub). split; [exact Hsub|].
  by rewrite (Hf reg' _ eq_refl).
Qed.

Lemma failures_are_batch_entries_witness :
  sublist ["msg-bad"; "unknown"] ["msg-1"; "msg-bad"; "unknown"; "msg-2"]
  /\ ["msg-bad"; "unknown"]
     = (fun r => default "unknown" (messageId r))
         <$> [Samples.poison;
              {| messageId := None; receiptHandle := None;
                 body := Some Samples.invalid_body; attributes := None |}].
Proof.
  exact (failures_are_batch_entries Samples.loads ∅
           (batch [Samples.good1; Samples.poison;
                   {| messageId := None; receiptHandle := None;
                      body := Some Samples.invalid_body; attributes := None |};
                   Samples.good2])).
Defined.

End ProcessorClaims.

(** * Properties of the producer *)

Module ApiFacts.
Import Models Api.

Lemma strip_empty : PyStr.strip EmptyString = EmptyString.
Proof. reflexivity. Qed.

Lemma sanitize_string_strip v : sanitize_string v = PyStr.strip v.
Proof. by destruct v. Qed.

Lemma append_cons x (a b : string) : String x a +:+ b = String x (a +:+ b).
Proof. reflexivity. Qed.

Lemma append_assoc (a b c : string) : a +:+ (b +:+ c) = (a +:+ b) +:+ c.
Proof. induction a as [|x a IH]; [done|]. by rewrite !append_cons, IH. Qed.

Lemma replace_without old new s :
  PyStr.contains old s = false -> PyStr.replace old new s = s.
Proof.
  induction s as [|c r IH]; [done|]. cbn [PyStr.contains PyStr.replace].
  destruct (Ascii.eqb c old); [done|]. cbn [orb]. intros H. by rewrite IH.
Qed.

Lemma replace_app old new s1 s2 :
  PyStr.replace old new (s1 +:+ s2)
  = PyStr.replace old new s1 +:+ PyStr.replace old new s2.
Proof.
  induction s1 as [|c r IH]; [done|].
  rewrite append_cons. cbn [PyStr.replace]. rewrite IH.
  destruct (Ascii.eqb c old); [apply append_assoc|done].
Qed.

Lemma validate_due_date_raises f s e :
  validate_due_date f (Some s) = Raise e -> e = ValueError.
Proof. cbn. destruct (f _); congruence. Qed.

Lemma sent_app e1 e2 : sent (e1 ++ e2) = sent e1 ++ sent e2.
Proof. apply omap_app. Qed.

(** A string within the length bounds passes the field and is stored
    stripped. *)
Lemma str_field_accepts min_length max_length s :
  (min_length <= String.length s <= max_length)%nat ->
  str_field min_length max_length (Some (JString s)) = inr (PyStr.strip s).
Proof.
  intros [Hlo Hhi]. unfold str_field.
  destruct (Nat.ltb_spec (String.length s) min_length); [lia|].
  destruct (Nat.ltb_spec max_length (String.length s)); [lia|].
  by rewrite sanitize_string_strip.
Qed.

Lemma exempt_spec p :
  existsb (String.eqb p) exempt_paths = true <-> p ∈ exempt_paths.
Proof.
  rewrite existsb_exists. split.
  - intros (x & Hin & Heq). apply String.eqb_eq in Heq as ->.
    by apply list_elem_of_In.
  - intros Hin. exists p. split; [by apply list_elem_of_In|apply String.eqb_refl].
Qed.

Section Endpoint.
Variable cfg : settings.
Variable send_message : SendMessage -> send_outcome.
Variable task_id created_at : string.
Variable fromisoformat : string -> bool.

Local Abbreviation post_tasks :=
  (post_tasks cfg send_message task_id created_at fromisoformat).
Local Abbreviation create_task := (create_task cfg send_message task_id created_at).
Local Abbreviation queue_message := (queue_message cfg task_id created_at).

(** The endpoint function hands exactly one message to the queue client. *)
Lemma create_task_sent task :
  sent (fst (create_task task)) = [queue_message task].
Proof. unfold Api.create_task. by destruct (send_message _). Qed.

Lemma create_task_status task :
  match snd (create_task task) with
  | Return _ => True
  | HTTPException code _ => code = HTTP_500_INTERNAL_SERVER_ERROR
  end.
Proof. unfold Api.create_task. by destruct (send_message _). Qed.

(** A request that fails validation reaches neither the endpoint function
    nor the queue; the answer is 400, or the server error when the handler
    cannot encode the errors. *)
Lemma post_tasks_invalid request b errors :
  json_body request = Some b ->
  model_validate fromisoformat b = inl errors ->
  sent (fst (post_tasks request)) = []
  /\ snd (post_tasks request)
     = if existsb holds_exception errors then internal_server_error
       else {| status_code := HTTP_400_BAD_REQUEST;
               body := JSON (JObject
                 [("error", JString "Validation Error");
                  ("message", JString "Invalid request data");
                  ("details", JArray (error_json <$> errors))]) |}.
Proof.
  intros Hb Hv. unfold Api.post_tasks. rewrite Hb, Hv.
  unfold validation_exception_handler, answered.
  by destruct (existsb holds_exception errors).
Qed.

Lemma str_field_error lo hi v e :
  str_field lo hi v = inl e -> e <> value_error.
Proof.
  unfold str_field. destruct v as [[| | |s| |]|]; try (intros [= <-]; discriminate).
  destruct (_ <? _)%nat; [intros [= <-]; discriminate|].
  destruct (_ <? _)%nat; [intros [= <-]; discriminate|discriminate].
Qed.

Lemma priority_field_error v e :
  priority_field v = inl e -> e <> value_error.
Proof.
  unfold priority_field. destruct v as [[| | |s| |]|]; try (intros [= <-]; discriminate).
  destruct (priority_of_string s); [discriminate|intros [= <-]; discriminate].
Qed.

Lemma field_errors_encodable {A} name (r : error_type + A) :
  (forall e, r = inl e -> e <> value_error) ->
  existsb holds_exception (field_errors name r) = false.
Proof.
  destruct r as [e|a]; [|done]. intros H. specialize (H e eq_refl).
  cbn. unfold holds_exception. cbn. by destruct e.
Qed.

(** The errors of a body hold an exception object exactly when its
    [due_date] is a string the validator rejects. *)
Lemma model_validate_errors members errors :
  model_validate fromisoformat (JObject members) = inl errors ->
  existsb holds_exception errors = due_date_unparseable fromisoformat members.
Proof.
  unfold model_validate, due_date_unparseable.
  pose proof (field_errors_encodable "title" _
                (str_field_error 1 200 (dict_lookup members "title"))) as Ht.
  pose proof (field_errors_encodable "description" _
                (str_field_error 1 2000 (dict_lookup members "description"))) as Hd.
  pose proof (field_errors_encodable "priority" _
                (priority_field_error (dict_lookup members "priority"))) as Hp.
  assert (existsb holds_exception
            (field_errors "due_date"
               (due_date_field fromisoformat (dict_lookup members "due_date")))
          = match dict_lookup members "due_date" with
            | Some (JString s) => negb (fromisoformat (iso_argument s))
            | _ => false
            end) as Hdd.
  { destruct (dict_lookup members "due_date") as [[| | |s| |]|]; try done.
    cbn [due_date_field validate_due_date].
    by destruct (fromisoformat (iso_argument s)). }
  intros H.
  assert (errors
          = field_errors "title" (str_field 1 200 (dict_lookup members "title"))
            ++ field_errors "description"
                 (str_field 1 2000 (dict_lookup members "description"))
            ++ field_errors "priority"
                 (priority_field (dict_lookup members "priority"))
            ++ field_errors "due_date"
                 (due_date_field fromisoformat (dict_lookup members "due_date")))
    as ->.
  { destruct (str_field 1 200 _), (str_field 1 2000 _), (priority_field _),
      (due_date_field _ _); congruence. }
  by rewrite !existsb_app, Ht, Hd, Hp, Hdd.
Qed.

Lemma post_tasks_valid request b task :
  json_body request = Some b ->
  model_validate fromisoformat b = inr task ->
  sent (fst (post_tasks request)) = [queue_message task]
  /\ (status_code (snd (post_tasks request)) = HTTP_201_CREATED
      \/ status_code (snd (post_tasks request)) = HTTP_500_INTERNAL_SERVER_ERROR).
Proof.
  intros Hb Hv. unfold Api.post_tasks. rewrite Hb, Hv.
  pose proof (create_task_sent task) as Hs.
  pose proof (create_task_status task) as Hc.
  destruct (create_task task) as [effects [t|code detail]]; cbn [fst snd] in *.
  - split; [done|by left].
  - subst code. cbn [http_exception_handler fst snd status_code].
    rewrite sent_app, Hs. split; [done|by right].
Qed.

(** The body of the answer to a request that passes validation is JSON:
    it is never the text of the server error. *)
Lemma post_tasks_valid_json request b task :
  json_body request = Some b ->
  model_validate fromisoformat b = inr task ->
  snd (post_tasks request) <> internal_server_error.
Proof.
  intros Hb Hv. unfold Api.post_tasks. rewrite Hb, Hv.
  by destruct (create_task task) as [effects [t|code detail]].
Qed.

(** The answer to a body that is an object and fails validation. *)
Lemma post_tasks_invalid_object request members errors :
  json_body request = Some (JObject members) ->
  model_validate fromisoformat (JObject members) = inl errors ->
  sent (fst (post_tasks request)) = []
  /\ (due_date_unparseable fromisoformat members = true ->
      snd (post_tasks request) = internal_server_error)
  /\ (due_date_unparseable fromisoformat members = false ->
      status_code (snd (post_tasks request)) = HTTP_400_BAD_REQUEST).
Proof.
  intros Hb Hv.
  destruct (post_tasks_invalid request _ _ Hb Hv) as [Hs Hr].
  rewrite (model_validate_errors _ _ Hv) in Hr.
  split; [exact Hs|]. split; intros Hu; rewrite Hu in Hr; by rewrite Hr.
Qed.

Lemma due_date_rejected members s :
  dict_lookup members "due_date" = Some (JString s) ->
  fromisoformat (iso_argument s) = false ->
  due_date_unparseable fromisoformat members = true
  /\ exists errors, model_validate fromisoformat (JObject members) = inl errors.
Proof.
  intros Hd Hf. split.
  - unfold due_date_unparseable. by rewrite Hd, Hf.
  - unfold model_validate. rewrite Hd.
    cbn [due_date_field validate_due_date]. rewrite Hf.
    destruct (str_field 1 200 _), (str_field 1 2000 _), (priority_field _);
      eexists; reflexivity.
Qed.

Lemma due_date_accepted members s t d p :
  dict_lookup members "due_date" = Some (JString s) ->
  str_field 1 200 (dict_lookup members "title") = inr t ->
  str_field 1 2000 (dict_lookup members "description") = inr d ->
  priority_field (dict_lookup members "priority") = inr p ->
  fromisoformat (iso_argument s) = true ->
  model_validate fromisoformat (JObject members)
  = inr {| title := t; description := d; priority := p; due_date := Some s |}.
Proof.
  intros Hd Ht Hde Hp Hf. unfold model_validate. rewrite Hd, Ht, Hde, Hp.
  cbn [due_date_field validate_due_date]. by rewrite Hf.
Qed.

End Endpoint.

End ApiFacts.

Module ApiClaims.
Import Models Api ApiFacts.

(** C4. A title (or description) made of a single space is not rejected:
    it passes the length check of its field, the validator strips it, and
    the empty string is stored, queued and returned with status 201.  The
    claim asks for a validation failure here. *)
Theorem whitespace_only_title_is_stored_empty :
  let request :=
    ApiSamples.post [] (ApiSamples.task_json " " "Test Description" "high" None) in
  let stored :=
    {| title := EmptyString; description := "Test Description";
       priority := high; due_date := None |} in
  let out :=
    post_tasks ApiSamples.open_cfg ApiSamples.queue_accepts
      ApiSamples.sample_id ApiSamples.sample_time ApiSamples.fromisoformat request in
  str_field 1 200 (Some (JString " ")) = inr EmptyString
  /\ str_field 1 2000 (Some (JString " ")) = inr EmptyString
  /\ model_validate ApiSamples.fromisoformat
       (ApiSamples.task_json " " "Test Description" "high" None) = inr stored
  /\ status_code (snd out) = HTTP_201_CREATED
  /\ sent (fst out)
     = [queue_message ApiSamples.open_cfg ApiSamples.sample_id
          ApiSamples.sample_time stored].
Proof. vm_compute. repeat split. Qed.

(** C6, as the claim states it, fails: when the queue client raises a
    [ClientError], the message of that error is part of the response
    body. *)
Lemma queue_error_message_in_response :
  snd (post_tasks ApiSamples.open_cfg ApiSamples.queue_denies
         ApiSamples.sample_id ApiSamples.sample_time ApiSamples.fromisoformat
         (ApiSamples.post [] ApiSamples.valid_task))
  = {| status_code := 500;
       body := JSON (JObject
         [("error", JString "HTTP Error");
          ("message",
           JString "Failed to queue task: Access to the resource https://sqs.us-east-1.amazonaws.com/ is denied.")]) |}.
Proof. vm_compute. reflexivity. Qed.

(** C6, amended. For a request that passes validation, the response is
    201 when the queue client returns and 500 with the body
    [{"error": "HTTP Error", "message": ...}] when it raises.  For a
    [ClientError] the message is ["Failed to queue task: "] followed by
    the [Message] of the error (or [str(e)] without one); the error code
    is only in the log.  For any other exception the message is a fixed
    text and the text of the exception is only in the log. *)
Theorem queue_failure_is_500 cfg send_message task_id created_at fromisoformat
    request b task :
  json_body request = Some b ->
  model_validate fromisoformat b = inr task ->
  let out := post_tasks cfg send_message task_id created_at fromisoformat request in
  match send_message (queue_message cfg task_id created_at task) with
  | Sent _ => status_code (snd out) = HTTP_201_CREATED
  | RaisesClientError err str_e =>
      let error_code := default "Unknown" (dict_lookup (default [] err) "Code") in
      let error_message := default str_e (dict_lookup (default [] err) "Message") in
      snd out
      = {| status_code := HTTP_500_INTERNAL_SERVER_ERROR;
           body := JSON (JObject
             [("error", JString "HTTP Error");
              ("message", JString ("Failed to queue task: " +:+ error_message))]) |}
      /\ Log "ERROR" "Failed to send message to SQS"
           [("task_id", JString task_id); ("error_code", JString error_code);
            ("error_message", JString error_message)] ∈ fst out
  | RaisesException type_name str_e =>
      snd out
      = {| status_code := HTTP_500_INTERNAL_SERVER_ERROR;
           body := JSON (JObject
             [("error", JString "HTTP Error");
              ("message",
               JString "An unexpected error occurred while creating the task")]) |}
      /\ Log "ERROR" "Unexpected error creating task"
           [("task_id", JString task_id); ("error", JString str_e);
            ("error_type", JString type_name)] ∈ fst out
  end.
Proof.
  intros Hb Hv out. subst out. unfold post_tasks. rewrite Hb, Hv.
  unfold create_task.
  destruct (send_message _) as [response|err str_e|type_name str_e];
    cbn [http_exception_handler fst snd status_code app].
  - reflexivity.
  - split; [reflexivity|]. do 2 apply list_elem_of_further. apply list_elem_of_here.
  - split; [reflexivity|]. do 2 apply list_elem_of_further. apply list_elem_of_here.
Qed.

(** The run of the code on a [ClientError] that carries no [Message]: the
    body holds [str(e)], which for botocore names the error code. *)
Example client_error_without_message_run :
  snd (post_tasks ApiSamples.open_cfg
         (fun _ => RaisesClientError (Some [("Code", "AccessDenied")])
                     "An error occurred (AccessDenied) when calling the SendMessage operation: Unknown")
         ApiSamples.sample_id ApiSamples.sample_time ApiSamples.fromisoformat
         (ApiSamples.post [] ApiSamples.valid_task))
  = {| status_code := 500;
       body := JSON (JObject
         [("error", JString "HTTP Error");
          ("message",
           JString "Failed to queue task: An error occurred (AccessDenied) when calling the SendMessage operation: Unknown")]) |}.
Proof. vm_compute. reflexivity. Qed.

Lemma queue_failure_is_500_witness :
  let out :=
    post_tasks ApiSamples.open_cfg ApiSamples.queue_unreachable
      ApiSamples.sample_id ApiSamples.sample_time ApiSamples.fromisoformat
      (ApiSamples.post [] ApiSamples.valid_task) in
  snd out
  = {| status_code := HTTP_500_INTERNAL_SERVER_ERROR;
       body := JSON (JObject
         [("error", JString "HTTP Error");
          ("message",
           JString "An unexpected error occurred while creating the task")]) |}
  /\ Log "ERROR" "Unexpected error creating task"
       [("task_id", JString ApiSamples.sample_id);
        ("error", JString "Could not connect to the endpoint URL");
        ("error_type", JString "EndpointConnectionError")] ∈ fst out.
Proof.
  exact (queue_failure_is_500 ApiSamples.open_cfg ApiSamples.queue_unreachable
           ApiSamples.sample_id ApiSamples.sample_time ApiSamples.fromisoformat
           (ApiSamples.post [] ApiSamples.valid_task) ApiSamples.valid_task
           {| title := "Test Task"; description := "Test Description";
              priority := high; due_date := Some "2026-01-15T12:00:00Z" |}
           eq_refl eq_refl).
Defined.

(** C8. For a request whose body carries a string [due_date]: the field
    validator raises exactly when [datetime.fromisoformat] rejects the
    value with every [Z] replaced by [+00:00]; a value with a trailing
    [Z] is accepted when the same value with the offset [+00:00] parses,
    and a value without [Z] (an explicit offset) when it parses as it is.
    A rejected value is never queued.  But the request is not answered
    with a validation error: the handler of validation errors raises
    while it encodes the error entry, which holds the [ValueError], and
    the caller gets the server error 500, whatever the other fields.  The
    claim asks for a validation error here. *)
Theorem unparseable_due_date_is_answered_500 cfg send_message task_id created_at
    fromisoformat request members s :
  json_body request = Some (JObject members) ->
  dict_lookup members "due_date" = Some (JString s) ->
  let out := post_tasks cfg send_message task_id created_at fromisoformat request in
  (validate_due_date fromisoformat (Some s) = Raise ValueError
   <-> fromisoformat (iso_argument s) = false)
  /\ (validate_due_date fromisoformat (Some s) = Ok (Some s)
      <-> fromisoformat (iso_argument s) = true)
  /\ (fromisoformat (iso_argument s) = false ->
      snd out = {| status_code := 500; body := Text "Internal Server Error" |}
      /\ sent (fst out) = [])
  /\ (forall t d p,
        str_field 1 200 (dict_lookup members "title") = inr t ->
        str_field 1 2000 (dict_lookup members "description") = inr d ->
        priority_field (dict_lookup members "priority") = inr p ->
        status_code (snd out) <> HTTP_400_BAD_REQUEST
        /\ (sent (fst out) = [] <-> fromisoformat (iso_argument s) = false)
        /\ (fromisoformat (iso_argument s) = true ->
            sent (fst out)
            = [queue_message cfg task_id created_at
                 {| title := t; description := d; priority := p;
                    due_date := Some s |}]))
  /\ (forall s0, PyStr.contains "Z" s0 = false ->
        fromisoformat (s0 +:+ "+00:00") = true ->
        validate_due_date fromisoformat (Some (s0 +:+ "Z")) = Ok (Some (s0 +:+ "Z")))
  /\ (PyStr.contains "Z" s = false -> fromisoformat s = true ->
      validate_due_date fromisoformat (Some s) = Ok (Some s)).
Proof.
  intros Hb Hd out.
  assert (fromisoformat (iso_argument s) = false ->
          snd out = internal_server_error /\ sent (fst out) = []) as Hrej.
  { intros Hf.
    destruct (due_date_rejected fromisoformat members s Hd Hf) as [Hu [errors He]].
    destruct (post_tasks_invalid_object cfg send_message task_id created_at
                fromisoformat request members errors Hb He) as (Hs & H500 & _).
    fold out in Hs, H500. split; [by apply H500|exact Hs]. }
  split; [|split; [|split; [exact Hrej|split; [|split]]]].
  - cbn. destruct (fromisoformat _); split; congruence.
  - cbn. destruct (fromisoformat _); split; congruence.
  - intros t d p Ht Hde Hp.
    destruct (fromisoformat (iso_argument s)) eqn:Hf.
    + pose proof (due_date_accepted fromisoformat members s t d p Hd Ht Hde Hp Hf)
        as Hv.
      destruct (post_tasks_valid cfg send_message task_id created_at
                  fromisoformat request _ _ Hb Hv) as [Hs Hc].
      fold out in Hs, Hc. split; [|split; [|done]].
      * intros H400. destruct Hc as [Hc|Hc]; rewrite Hc in H400; discriminate.
      * rewrite Hs. split; discriminate.
    + destruct (Hrej eq_refl) as [H500 Hs]. split; [|split; [done|done]].
      by rewrite H500.
  - intros s0 Hz Hf. cbn [validate_due_date]. unfold iso_argument.
    rewrite replace_app, (replace_without _ _ _ Hz).
    change (PyStr.replace "Z" "+00:00" "Z") with "+00:00". by rewrite Hf.
  - intros Hz Hf. cbn [validate_due_date]. unfold iso_argument.
    by rewrite (replace_without _ _ _ Hz), Hf.
Qed.

Lemma unparseable_due_date_is_answered_500_witness :
  let s := "not-a-date" in
  let f := ApiSamples.fromisoformat in
  let out :=
    post_tasks ApiSamples.open_cfg ApiSamples.queue_accepts
      ApiSamples.sample_id ApiSamples.sample_time f
      (ApiSamples.post []
         (ApiSamples.task_json "Test Task" "Test Description" "high" (Some s))) in
  (validate_due_date f (Some s) = Raise ValueError <-> f (iso_argument s) = false)
  /\ (validate_due_date f (Some s) = Ok (Some s) <-> f (iso_argument s) = true)
  /\ (f (iso_argument s) = false ->
      snd out = {| status_code := 500; body := Text "Internal Server Error" |}
      /\ sent (fst out) = [])
  /\ (forall t d p,
        str_field 1 200 (Some (JString "Test Task")) = inr t ->
        str_field 1 2000 (Some (JString "Test Description")) = inr d ->
        priority_field (Some (JString "high")) = inr p ->
        status_code (snd out) <> HTTP_400_BAD_REQUEST
        /\ (sent (fst out) = [] <-> f (iso_argument s) = false)
        /\ (f (iso_argument s) = true ->
            sent (fst out)
            = [queue_message ApiSamples.open_cfg ApiSamples.sample_id
                 ApiSamples.sample_time
                 {| title := t; description := d; priority := p;
                    due_date := Some s |}]))
  /\ (forall s0, PyStr.contains "Z" s0 = false ->
        f (s0 +:+ "+00:00") = true ->
        validate_due_date f (Some (s0 +:+ "Z")) = Ok (Some (s0 +:+ "Z")))
  /\ (PyStr.contains "Z" s = false -> f s = true ->
      validate_due_date f (Some s) = Ok (Some s)).
Proof.
  exact (unparseable_due_date_is_answered_500 ApiSamples.open_cfg
           ApiSamples.queue_accepts ApiSamples.sample_id ApiSamples.sample_time
           ApiSamples.fromisoformat
           (ApiSamples.post []
              (ApiSamples.task_json "Test Task" "Test Description" "high"
                 (Some "not-a-date")))
           [("title", JString "Test Task");
            ("description", JString "Test Description");
            ("priority", JString "high");
            ("due_date", JString "not-a-date")]
           "not-a-date" eq_refl eq_refl).
Defined.

(** The run of the code on a request with the due date ["not-a-date"]:
    one warning is logged and the answer is the server error. *)
Example unparseable_due_date_run :
  post_tasks ApiSamples.open_cfg ApiSamples.queue_accepts
    ApiSamples.sample_id ApiSamples.sample_time ApiSamples.fromisoformat
    (ApiSamples.post []
       (ApiSamples.task_json "Test Task" "Test Description" "high"
          (Some "not-a-date")))
  = ([Log "WARNING" "Validation error"
        [("path", JString "/tasks");
         ("errors",
          JArray [JObject [("loc", JArray [JString "body"; JString "due_date"])]])]],
     {| status_code := 500; body := Text "Internal Server Error" |}).
Proof. vm_compute. reflexivity. Qed.

(** The two accepted forms of the unit tests: a trailing [Z] and an
    explicit offset. *)
Example accepted_due_dates_run :
  validate_due_date ApiSamples.fromisoformat (Some "2026-01-15T12:00:00Z")
  = Ok (Some "2026-01-15T12:00:00Z")
  /\ validate_due_date ApiSamples.fromisoformat (Some "2026-01-15T12:00:00+05:00")
     = Ok (Some "2026-01-15T12:00:00+05:00").
Proof. vm_compute. split; reflexivity. Qed.

(** C9, as the claim states it, fails: with the gate enabled, an
    [x-api-key] header that is present with the empty value, which is not
    the configured key, gets the response of a missing header, not the
    one of an invalid key. *)
Lemma empty_api_key_reported_missing :
  let request :=
    ApiSamples.post [("x-api-key", EmptyString)] ApiSamples.valid_task in
  let next :=
    post_tasks ApiSamples.gated_cfg ApiSamples.queue_accepts
      ApiSamples.sample_id ApiSamples.sample_time ApiSamples.fromisoformat in
  ENABLE_API_KEY_CHECK ApiSamples.gated_cfg = true
  /\ headers_get (headers request) "x-api-key" = Some EmptyString
  /\ VALID_API_KEY ApiSamples.gated_cfg = "test-api-key-12345"
  /\ snd (validate_api_key ApiSamples.gated_cfg request next)
     = {| status_code := 403;
          body := JSON (JObject
            [("error", JString "Forbidden");
             ("message", JString "Missing API Key. Include x-api-key header.")]) |}.
Proof. vm_compute. repeat split. Qed.

(** C9, amended. A request to [/health], [/docs], [/redoc] or
    [/openapi.json] goes to the handler whatever the settings.  With the
    gate enabled, for any other path: a missing or empty [x-api-key]
    header gets 403 with the message
    ["Missing API Key. Include x-api-key header."]; a non-empty value
    other than the configured key gets 403 with the different message
    ["Invalid API Key."]; a non-empty value equal to the configured key
    goes to the handler, whose response is returned.  In the two 403 cases
    the handler is not called. *)
Theorem api_key_gate cfg request call_next :
  let out := validate_api_key cfg request call_next in
  let key := headers_get (headers request) "x-api-key" in
  (path request ∈ ["/health"; "/docs"; "/redoc"; "/openapi.json"] ->
   out = call_next request)
  /\ (path request ∉ ["/health"; "/docs"; "/redoc"; "/openapi.json"] ->
      ENABLE_API_KEY_CHECK cfg = true ->
      (key = None \/ key = Some EmptyString ->
       out = ([Log "WARNING" "Missing API key"
                 [("path", JString (path request));
                  ("method", JString (method request))]],
              {| status_code := 403;
                 body := JSON (JObject
                   [("error", JString "Forbidden");
                    ("message",
                     JString "Missing API Key. Include x-api-key header.")]) |}))
      /\ (forall k, key = Some k -> k <> EmptyString -> k <> VALID_API_KEY cfg ->
          snd out
          = {| status_code := 403;
               body := JSON (JObject
                 [("error", JString "Forbidden");
                  ("message", JString "Invalid API Key.")]) |}
          /\ sent (fst out) = [])
      /\ (forall k, key = Some k -> k <> EmptyString -> k = VALID_API_KEY cfg ->
          snd out = snd (call_next request)
          /\ sent (fst out) = sent (fst (call_next request))))
  /\ (path request ∉ ["/health"; "/docs"; "/redoc"; "/openapi.json"] ->
      ENABLE_API_KEY_CHECK cfg = false ->
      out = call_next request).
Proof.
  intros out key. subst out key. unfold validate_api_key.
  change ["/health"; "/docs"; "/redoc"; "/openapi.json"] with exempt_paths.
  destruct (existsb _ exempt_paths) eqn:Hex.
  - apply exempt_spec in Hex. repeat split; intros; done.
  - assert (path request ∉ exempt_paths) as Hnot.
    { intros Hin. apply exempt_spec in Hin. congruence. }
    split; [done|]. split; [|by intros _ ->].
    intros _ ->. split; [|split].
    + by intros [-> | ->].
    + intros k -> Hne Hbad. destruct k as [|c k]; [done|].
      destruct (String.eqb_spec (String c k) (VALID_API_KEY cfg)); [done|].
      by cbn.
    + intros k -> Hne Hok. destruct k as [|c k]; [done|].
      rewrite Hok, String.eqb_refl. cbn [negb].
      by destruct (call_next request).
Qed.

Lemma api_key_gate_witness :
  let cfg := ApiSamples.gated_cfg in
  let request :=
    ApiSamples.post [("x-api-key", "test-api-key-12345")] ApiSamples.valid_task in
  let call_next :=
    post_tasks cfg ApiSamples.queue_accepts ApiSamples.sample_id
      ApiSamples.sample_time ApiSamples.fromisoformat in
  let out := validate_api_key cfg request call_next in
  let key := headers_get (headers request) "x-api-key" in
  (path request ∈ ["/health"; "/docs"; "/redoc"; "/openapi.json"] ->
   out = call_next request)
  /\ (path request ∉ ["/health"; "/docs"; "/redoc"; "/openapi.json"] ->
      ENABLE_API_KEY_CHECK cfg = true ->
      (key = None \/ key = Some EmptyString ->
       out = ([Log "WARNING" "Missing API key"
                 [("path", JString (path request));
                  ("method", JString (method request))]],
              {| status_code := 403;
                 body := JSON (JObject
                   [("error", JString "Forbidden");
                    ("message",
                     JString "Missing API Key. Include x-api-key header.")]) |}))
      /\ (forall k, key = Some k -> k <> EmptyString -> k <> VALID_API_KEY cfg ->
          snd out
          = {| status_code := 403;
               body := JSON (JObject
                 [("error", JString "Forbidden");
                  ("message", JString "Invalid API Key.")]) |}
          /\ sent (fst out) = [])
      /\ (forall k, key = Some k -> k <> EmptyString -> k = VALID_API_KEY cfg ->
          snd out = snd (call_next request)
          /\ sent (fst out) = sent (fst (call_next request))))
  /\ (path request ∉ ["/health"; "/docs"; "/redoc"; "/openapi.json"] ->
      ENABLE_API_KEY_CHECK cfg = false ->
      out = call_next request).
Proof.
  exact (api_key_gate ApiSamples.gated_cfg
           (ApiSamples.post [("x-api-key", "test-api-key-12345")]
              ApiSamples.valid_task)
           (post_tasks ApiSamples.gated_cfg ApiSamples.queue_accepts
              ApiSamples.sample_id ApiSamples.sample_time
              ApiSamples.fromisoformat)).
Defined.

End ApiClaims.

(** * Further properties of the consumer *)

Module ProcessorMore.
Import Processor ProcessorFacts.

Section Loop.
Variable json_loads : string -> option json.

Local Abbreviation for_records := (for_records json_loads).
Local Abbreviation payload := (payload json_loads).
Local Abbreviation task_key := (task_key json_loads).

Ltac by_cases r :=
  destruct (record_cases json_loads r)
    as [[?k ?Hk]|[?Hp|[[?m [?Hp ?Hk]]|[?v [?Hp ?Hv]]]]];
  [ rewrite ?(for_records_registers _ _ _ _ _ _ _ Hk)
  | rewrite ?(for_records_malformed _ _ _ _ _ _ Hp)
  | rewrite ?(for_records_unhashable _ _ _ _ _ _ _ Hp Hk)
  | rewrite ?(for_records_not_a_dict _ _ _ _ _ _ _ Hp Hv) ].

(** What the loop reports does not depend on what is registered. *)
Lemma for_records_result_registry_free records :
  forall registry registry' loc fs,
    snd (for_records records registry loc fs)
    = snd (for_records records registry' loc fs).
Proof.
  induction records as [|r rest IH]; intros registry registry' loc fs; [done|].
  by_cases r; auto.
Qed.

(** Running the loop again from a registry that holds its result changes
    nothing and reports the same. *)
Lemma for_records_again records :
  forall registry loc fs registry2,
    fst (for_records records registry loc fs) ⊆ registry2 ->
    for_records records registry2 loc fs
    = (registry2, snd (for_records records registry loc fs)).
Proof.
  induction records as [|r rest IH]; intros registry loc fs registry2; [done|].
  by_cases r; intros Hsub.
  - assert (k ∈ registry2) as Hin.
    { apply Hsub.
      apply (for_records_grows json_loads rest ({[k]} ∪ registry) None fs).
      set_solver. }
    rewrite (insert_present _ _ Hin). by apply IH.
  - by apply IH.
  - by apply IH.
  - done.
Qed.

Lemma size_insert_le (k : pykey) (registry : gset pykey) :
  size ({[k]} ∪ registry) <= S (size registry).
Proof.
  destruct (decide (k ∈ registry)) as [Hin|Hin].
  - rewrite (insert_present _ _ Hin). lia.
  - rewrite size_union by set_solver. rewrite size_singleton. lia.
Qed.

Lemma for_records_count records :
  forall registry loc fs0,
    match for_records records registry loc fs0 with
    | (registry', Ok fs) =>
        length fs <= length fs0 + length records
        /\ size registry' + length fs
           <= size registry + length fs0 + length records
    | (_, Raise _) => True
    end.
Proof.
  induction records as [|r rest IH]; intros registry loc fs0.
  - cbn. lia.
  - by_cases r.
    + specialize (IH ({[k]} ∪ registry) None fs0).
      destruct (for_records rest _ None fs0) as [reg' [fs|e]]; [|done].
      pose proof (size_insert_le k registry). cbn [length]. lia.
    + specialize (IH registry None (fs0 ++ [{| itemIdentifier := message_id r |}])).
      destruct (for_records rest _ None _) as [reg' [fs|e]]; [|done].
      rewrite length_app in IH. cbn [length] in *. lia.
    + specialize (IH registry None (fs0 ++ [{| itemIdentifier := message_id r |}])).
      destruct (for_records rest _ None _) as [reg' [fs|e]]; [|done].
      rewrite length_app in IH. cbn [length] in *. lia.
    + done.
Qed.

Lemma for_records_provenance records :
  forall registry loc fs k,
    k ∈ fst (for_records records registry loc fs) ->
    k ∈ registry \/ exists r, r ∈ records /\ task_key r = Some k.
Proof.
  induction records as [|r rest IH]; intros registry loc fs k; [by left|].
  by_cases r; intros Hin.
  - apply IH in Hin as [Hin|(r' & Hr' & Hk')].
    + apply elem_of_union in Hin as [Hin|Hin]; [|by left].
      apply elem_of_singleton in Hin as ->.
      right. exists r. split; [by left|done].
    + right. exists r'. split; [by right|done].
  - apply IH in Hin as [Hin|(r' & Hr' & Hk')]; [by left|].
    right. exists r'. split; [by right|done].
  - apply IH in Hin as [Hin|(r' & Hr' & Hk')]; [by left|].
    right. exists r'. split; [by right|done].
  - by left.
Qed.

End Loop.

(** X1. An entry whose payload is valid JSON but not an object (a list,
    a string, a number, [null]) ends the handler with [AttributeError]:
    the registry is the one reached before that entry, the entries after
    it are never processed, and the failures recorded so far are not
    returned. *)
Theorem non_object_payload_aborts json_loads registry pre r post v registry1 fs1 :
  for_records json_loads pre registry None [] = (registry1, Ok fs1) ->
  payload json_loads r = Some v ->
  not_a_dict v = true ->
  lambda_handler json_loads registry (batch (pre ++ r :: post))
  = (registry1, Raise AttributeError).
Proof.
  intros Hpre Hp Hv. rewrite lambda_handler_batch, for_records_app, Hpre.
  by rewrite (for_records_not_a_dict _ _ _ _ _ _ _ Hp Hv).
Qed.

Lemma non_object_payload_aborts_witness :
  lambda_handler MoreSamples.loads ∅
    (batch ([Samples.good1; Samples.poison]
            ++ MoreSamples.null_record :: [Samples.good2]))
  = ({[KStr "task-1"]}, Raise AttributeError).
Proof.
  apply (non_object_payload_aborts MoreSamples.loads ∅
           [Samples.good1; Samples.poison] MoreSamples.null_record
           [Samples.good2] JNull {[KStr "task-1"]}
           [{| itemIdentifier := "msg-bad" |}]).
  - vm_compute. reflexivity.
  - reflexivity.
  - reflexivity.
Defined.

(** X2. An entry whose payload is an object with a [task_id] that is a
    list or an object (an unhashable value) is reported as a failure, adds
    nothing to the registry, and the rest of the batch is processed as it
    would be alone. *)
Theorem unhashable_task_id_fails json_loads registry r members tid rest :
  payload json_loads r = Some (JObject members) ->
  dict_lookup members "task_id" = Some tid ->
  py_hash tid = Raise TypeError ->
  let failure := {| itemIdentifier := message_id r |} in
  process_task registry (JObject members) = (registry, Raise TypeError)
  /\ lambda_handler json_loads registry (batch (r :: rest))
     = (fst (lambda_handler json_loads registry (batch rest)),
        rmap (cons failure) (snd (lambda_handler json_loads registry (batch rest)))).
Proof.
  intros Hp Hm Hh failure. split.
  - unfold process_task. cbn [py_get]. rewrite Hm.
    change (default (JString "unknown") (Some tid)) with tid. by rewrite Hh.
  - assert (task_key json_loads r = None) as Hk.
    { unfold task_key. rewrite Hp, Hm.
      change (default (JString "unknown") (Some tid)) with tid. by rewrite Hh. }
    rewrite !lambda_handler_batch.
    rewrite (for_records_unhashable _ _ _ _ _ _ _ Hp Hk).
    apply (for_records_failures json_loads rest registry None [failure]).
Qed.

Lemma unhashable_task_id_fails_witness :
  let failure := {| itemIdentifier := "msg-list" |} in
  process_task ∅ (JObject [("task_id", JArray [JInt 1])]) = (∅, Raise TypeError)
  /\ lambda_handler MoreSamples.loads ∅
       (batch (MoreSamples.list_id_record :: [Samples.good1]))
     = (fst (lambda_handler MoreSamples.loads ∅ (batch [Samples.good1])),
        rmap (cons failure)
          (snd (lambda_handler MoreSamples.loads ∅ (batch [Samples.good1])))).
Proof.
  exact (unhashable_task_id_fails MoreSamples.loads ∅ MoreSamples.list_id_record
           [("task_id", JArray [JInt 1])] (JArray [JInt 1]) [Samples.good1]
           eq_refl eq_refl eq_refl).
Defined.

(** X3. What the handler returns or raises does not depend on the
    registry: the same batch gives the same failure list (or the same
    exception) whatever has been processed before. *)
Theorem failures_do_not_depend_on_registry json_loads registry registry' ev :
  snd (lambda_handler json_loads registry ev)
  = snd (lambda_handler json_loads registry' ev).
Proof. apply for_records_result_registry_free. Qed.

(** X4. Redelivery of a whole batch: if a call of the handler ends with
    registry [registry1], a second call on the same event from [registry1]
    leaves the registry as it is and gives the same failure list (or the
    same exception). *)
Theorem replay_changes_nothing json_loads registry ev registry1 res :
  lambda_handler json_loads registry ev = (registry1, res) ->
  lambda_handler json_loads registry1 ev = (registry1, res).
Proof.
  unfold lambda_handler. intros H.
  rewrite (for_records_again json_loads _ registry None [] registry1).
  - by rewrite H.
  - by rewrite H.
Qed.

Lemma replay_changes_nothing_witness :
  lambda_handler Samples.loads {[KStr "task-1"; KStr "task-2"]}
    (batch [Samples.good1; Samples.poison; Samples.good2])
  = ({[KStr "task-1"; KStr "task-2"]}, Ok [{| itemIdentifier := "msg-bad" |}]).
Proof.
  apply (replay_changes_nothing Samples.loads ∅
           (batch [Samples.good1; Samples.poison; Samples.good2])).
  vm_compute. reflexivity.
Defined.

(** X5. Every id in the registry after a call was there before or is the
    task id of an entry of the batch: the handler registers nothing
    else. *)
Theorem registered_ids_come_from_batch json_loads registry ev k :
  k ∈ fst (lambda_handler json_loads registry ev) ->
  k ∈ registry
  \/ exists r, r ∈ default [] (Records ev) /\ task_key json_loads r = Some k.
Proof. apply for_records_provenance. Qed.

Lemma registered_ids_come_from_batch_witness :
  KStr "task-2" ∈ (∅ : gset pykey)
  \/ exists r, r ∈ default [] (Records (batch [Samples.good1; Samples.good2]))
       /\ task_key Samples.loads r = Some (KStr "task-2").
Proof.
  apply (registered_ids_come_from_batch Samples.loads ∅
           (batch [Samples.good1; Samples.good2]) (KStr "task-2")).
  vm_compute. reflexivity.
Defined.

(** X6. When the handler returns, there are at most as many failure
    records as entries, and the registry has grown by at most the number
    of entries that did not fail (the [successful_count] of the log). *)
Theorem registry_growth_bounded_by_successes json_loads registry ev registry1 failures :
  lambda_handler json_loads registry ev = (registry1, Ok failures) ->
  let records := default [] (Records ev) in
  length failures <= length records
  /\ size registry1 <= size registry + (length records - length failures).
Proof.
  unfold lambda_handler. intros H. cbv zeta.
  pose proof (for_records_count json_loads (default [] (Records ev))
                registry None []) as Hc.
  rewrite H in Hc. cbn [length] in Hc. lia.
Qed.

Lemma registry_growth_bounded_by_successes_witness :
  let records := [Samples.good1; Samples.poison; Samples.good1] in
  length [{| itemIdentifier := "msg-bad" |}] <= length records
  /\ size ({[KStr "task-1"]} : gset pykey)
     <= size (∅ : gset pykey)
        + (length records - length [{| itemIdentifier := "msg-bad" |}]).
Proof.
  apply (registry_growth_bounded_by_successes Samples.loads ∅
           (batch [Samples.good1; Samples.poison; Samples.good1])
           {[KStr "task-1"]} [{| itemIdentifier := "msg-bad" |}]).
  vm_compute. reflexivity.
Defined.

(** X7. [process_task] is idempotent: a second call on the same task
    from the registry the first call left returns the same way and leaves
    that registry unchanged; a call that raises leaves the registry
    unchanged. *)
Theorem process_task_idempotent registry task_data :
  process_task (fst (process_task registry task_data)) task_data
  = process_task registry task_data
  /\ (forall e, snd (process_task registry task_data) = Raise e ->
      fst (process_task registry task_data) = registry).
Proof.
  unfold process_task.
  destruct (py_get _ _ _) as [tid|e]; [|by split].
  destruct (py_hash tid) as [k|e]; [|by split].
  destruct (decide (k ∈ registry)) as [Hin|Hin]; cbn [fst snd].
  - split; [|done]. by destruct (decide _).
  - split; [|done]. destruct (decide _) as [_|Hn]; [done|]. set_solver.
Qed.

(** X8. A record without the key [body] is decoded from the text [{}]:
    where [json.loads] reads that text as the empty object, the record is
    processed as the task ["unknown"] and is not a failure. *)
Theorem missing_body_is_empty_object json_loads registry r rest :
  body r = None ->
  json_loads "{}" = Some (JObject []) ->
  lambda_handler json_loads registry (batch (r :: rest))
  = lambda_handler json_loads ({[KStr "unknown"]} ∪ registry) (batch rest).
Proof.
  intros Hb Hl. rewrite !lambda_handler_batch.
  apply for_records_registers. unfold task_key, payload. rewrite Hb.
  change (json_loads (default "{}" None)) with (json_loads "{}"). by rewrite Hl.
Qed.

Lemma missing_body_is_empty_object_witness :
  lambda_handler MoreSamples.loads ∅ (batch (MoreSamples.bare_record :: [Samples.poison]))
  = lambda_handler MoreSamples.loads ({[KStr "unknown"]} ∪ ∅) (batch [Samples.poison]).
Proof.
  exact (missing_body_is_empty_object MoreSamples.loads ∅ MoreSamples.bare_record
           [Samples.poison] eq_refl eq_refl).
Defined.

End ProcessorMore.

(** * Further properties of the request model *)

Module ModelsMore.
Import Models Api ApiFacts.

Lemma rstrip_cons c r :
  PyStr.rstrip (String c r)
  = match PyStr.rstrip r with
    | EmptyString => if PyStr.isspace c then EmptyString else String c EmptyString
    | String d r' => String c (String d r')
    end.
Proof. reflexivity. Qed.

Lemma lstrip_split s :
  exists a, PyStr.blank a = true /\ s = a +:+ PyStr.lstrip s.
Proof.
  induction s as [|c r (a & Ha & Hs)]; [by exists EmptyString|].
  cbn [PyStr.lstrip]. destruct (PyStr.isspace c) eqn:Hc.
  - exists (String c a). cbn [PyStr.blank]. rewrite Hc, Ha.
    split; [done|]. by rewrite append_cons, <- Hs.
  - by exists EmptyString.
Qed.

Lemma rstrip_split s :
  exists b, PyStr.blank b = true /\ s = PyStr.rstrip s +:+ b.
Proof.
  induction s as [|c r (b & Hb & Hs)]; [by exists EmptyString|].
  rewrite rstrip_cons. destruct (PyStr.rstrip r) as [|d r'] eqn:Hr.
  - cbn in Hs. subst r. destruct (PyStr.isspace c) eqn:Hc.
    + exists (String c b). cbn [PyStr.blank]. by rewrite Hc, Hb.
    + by exists b.
  - exists b. split; [done|]. by rewrite append_cons, <- Hs.
Qed.

Lemma lstrip_fixed s :
  match s with String c _ => PyStr.isspace c = false | EmptyString => True end ->
  PyStr.lstrip s = s.
Proof. destruct s as [|c r]; [done|]. cbn. by intros ->. Qed.

Lemma lstrip_head s :
  match PyStr.lstrip s with
  | String c _ => PyStr.isspace c = false
  | EmptyString => True
  end.
Proof.
  induction s as [|c r IH]; [done|]. cbn [PyStr.lstrip].
  by destruct (PyStr.isspace c) eqn:Hc.
Qed.

Lemma rstrip_head s :
  match s with String c _ => PyStr.isspace c = false | EmptyString => True end ->
  match PyStr.rstrip s with
  | String c _ => PyStr.isspace c = false
  | EmptyString => True
  end.
Proof.
  destruct s as [|c r]; [done|]. intros Hc. rewrite rstrip_cons.
  destruct (PyStr.rstrip r); [by rewrite Hc|done].
Qed.

Lemma rstrip_rstrip s : PyStr.rstrip (PyStr.rstrip s) = PyStr.rstrip s.
Proof.
  induction s as [|c r IH]; [done|]. rewrite rstrip_cons.
  destruct (PyStr.rstrip r) as [|d r'] eqn:Hr.
  - destruct (PyStr.isspace c) eqn:Hc; [done|].
    rewrite rstrip_cons. cbn [PyStr.rstrip]. by rewrite Hc.
  - rewrite rstrip_cons, IH. done.
Qed.

Lemma length_append (a b : string) :
  String.length (a +:+ b) = String.length a + String.length b.
Proof. induction a as [|x a IH]; [done|]. rewrite append_cons. cbn. by rewrite IH. Qed.

Lemma strip_split s :
  exists a b, PyStr.blank a = true /\ PyStr.blank b = true
    /\ s = a +:+ PyStr.strip s +:+ b.
Proof.
  destruct (lstrip_split s) as (a & Ha & Hs).
  destruct (rstrip_split (PyStr.lstrip s)) as (b & Hb & Hl).
  exists a, b. unfold PyStr.strip. by rewrite <- Hl.
Qed.

Lemma strip_stable s :
  PyStr.lstrip (PyStr.strip s) = PyStr.strip s
  /\ PyStr.rstrip (PyStr.strip s) = PyStr.strip s.
Proof.
  unfold PyStr.strip. split; [|apply rstrip_rstrip].
  apply lstrip_fixed, rstrip_head, lstrip_head.
Qed.

Lemma strip_length s : String.length (PyStr.strip s) <= String.length s.
Proof.
  destruct (strip_split s) as (a & b & _ & _ & Hs).
  rewrite Hs at 2. rewrite !length_append. lia.
Qed.

(** X9. [sanitize_string] removes whitespace and nothing else: its
    argument is its result between two runs of whitespace; the result
    neither begins nor ends with whitespace; applying it again changes
    nothing. *)
Theorem sanitize_string_trims v :
  (exists a b, PyStr.blank a = true /\ PyStr.blank b = true
     /\ v = a +:+ sanitize_string v +:+ b)
  /\ PyStr.lstrip (sanitize_string v) = sanitize_string v
  /\ PyStr.rstrip (sanitize_string v) = sanitize_string v
  /\ sanitize_string (sanitize_string v) = sanitize_string v
  /\ String.length (sanitize_string v) <= String.length v.
Proof.
  rewrite !sanitize_string_strip. destruct (strip_stable v) as [Hl Hr].
  split; [apply strip_split|]. split; [done|]. split; [done|].
  split; [|apply strip_length].
  unfold PyStr.strip at 1. by rewrite Hl, Hr.
Qed.

Section Validation.
Variable fromisoformat : string -> bool.

Lemma str_field_inr lo hi v t :
  str_field lo hi v = inr t ->
  exists raw, v = Some (JString raw)
    /\ lo <= String.length raw <= hi /\ t = PyStr.strip raw.
Proof.
  unfold str_field. destruct v as [[| | |raw| |]|]; try discriminate.
  destruct (Nat.ltb_spec (String.length raw) lo); [discriminate|].
  destruct (Nat.ltb_spec hi (String.length raw)); [discriminate|].
  intros [= <-]. exists raw. rewrite sanitize_string_strip. repeat split; lia.
Qed.

Lemma model_validate_inr body task :
  model_validate fromisoformat body = inr task ->
  exists members,
    body = JObject members
    /\ str_field 1 200 (dict_lookup members "title") = inr (title task)
    /\ str_field 1 2000 (dict_lookup members "description") = inr (description task)
    /\ priority_field (dict_lookup members "priority") = inr (priority task)
    /\ due_date_field fromisoformat (dict_lookup members "due_date")
       = inr (due_date task).
Proof.
  destruct body as [| | | | |members]; try discriminate.
  unfold model_validate. intros H. exists members.
  destruct (str_field 1 200 _) as [|t]; [discriminate|].
  destruct (str_field 1 2000 _) as [|d]; [discriminate|].
  destruct (priority_field _) as [|p]; [discriminate|].
  destruct (due_date_field _ _) as [|dd]; [discriminate|].
  by injection H as <-.
Qed.

End Validation.

(** X10. A task that passes validation has a title and a description
    that are the submitted strings stripped, where the submitted strings
    have 1 to 200 and 1 to 2000 characters; the stored strings are no
    longer than that and neither begin nor end with whitespace. *)
Theorem accepted_fields_are_stripped fromisoformat body task :
  model_validate fromisoformat body = inr task ->
  exists members raw_title raw_description,
    body = JObject members
    /\ dict_lookup members "title" = Some (JString raw_title)
    /\ dict_lookup members "description" = Some (JString raw_description)
    /\ 1 <= String.length raw_title <= 200
    /\ 1 <= String.length raw_description <= 2000
    /\ title task = PyStr.strip raw_title
    /\ description task = PyStr.strip raw_description
    /\ String.length (title task) <= 200
    /\ String.length (description task) <= 2000
    /\ PyStr.lstrip (title task) = title task
    /\ PyStr.rstrip (title task) = title task
    /\ PyStr.lstrip (description task) = description task
    /\ PyStr.rstrip (description task) = description task.
Proof.
  intros H. apply model_validate_inr in H as (members & -> & Ht & Hd & _ & _).
  apply str_field_inr in Ht as (rt & Hlt & Hbt & Het).
  apply str_field_inr in Hd as (rd & Hld & Hbd & Hed).
  exists members, rt, rd. rewrite Het, Hed.
  destruct (strip_stable rt) as [? ?]. destruct (strip_stable rd) as [? ?].
  pose proof (strip_length rt). pose proof (strip_length rd).
  repeat split; try done; lia.
Qed.

Lemma accepted_fields_are_stripped_witness :
  exists members raw_title raw_description,
    ApiSamples.task_json "  Test Title  " "  Test Description  " "high" None
      = JObject members
    /\ dict_lookup members "title" = Some (JString raw_title)
    /\ dict_lookup members "description" = Some (JString raw_description)
    /\ 1 <= String.length raw_title <= 200
    /\ 1 <= String.length raw_description <= 2000
    /\ "Test Title" = PyStr.strip raw_title
    /\ "Test Description" = PyStr.strip raw_description
    /\ String.length "Test Title" <= 200
    /\ String.length "Test Description" <= 2000
    /\ PyStr.lstrip "Test Title" = "Test Title"
    /\ PyStr.rstrip "Test Title" = "Test Title"
    /\ PyStr.lstrip "Test Description" = "Test Description"
    /\ PyStr.rstrip "Test Description" = "Test Description".
Proof.
  exact (accepted_fields_are_stripped ApiSamples.fromisoformat
           (ApiSamples.task_json "  Test Title  " "  Test Description  " "high" None)
           {| title := "Test Title"; description := "Test Description";
              priority := high; due_date := None |} eq_refl).
Defined.



(** X12. The due date of an accepted task is stored as it was sent, with
    its [Z] if it has one; it is [None] when the request has no
    [due_date] or has [null], and in that case
    [datetime.fromisoformat] plays no part in the validation. *)
Theorem due_date_stored_as_sent fromisoformat members task :
  model_validate fromisoformat (JObject members) = inr task ->
  match dict_lookup members "due_date" with
  | None | Some JNull =>
      due_date task = None
      /\ forall other, model_validate other (JObject members) = inr task
  | Some (JString s) =>
      due_date task = Some s /\ fromisoformat (iso_argument s) = true
  | Some _ => False
  end.
Proof.
  intros H. pose proof H as H0.
  apply model_validate_inr in H as (m & [= <-] & Ht & Hd & Hp & Hdd).
  unfold model_validate in H0 |- *. rewrite Ht, Hd, Hp in H0 |- *.
  destruct (dict_lookup members "due_date") as [[| | |s| |]|];
    cbn [due_date_field validate_due_date] in *; try discriminate.
  - injection Hdd as <-. split; [done|]. intros other. exact H0.
  - destruct (fromisoformat (iso_argument s)); [|discriminate].
    by injection Hdd as <-.
  - injection Hdd as <-. split; [done|]. intros other. exact H0.
Qed.

Lemma due_date_stored_as_sent_witness :
  Some "2026-01-15T12:00:00Z" = Some "2026-01-15T12:00:00Z"
  /\ ApiSamples.fromisoformat (iso_argument "2026-01-15T12:00:00Z") = true.
Proof.
  exact (due_date_stored_as_sent ApiSamples.fromisoformat
           [("title", JString "Test Task");
            ("description", JString "Test Description");
            ("priority", JString "high");
            ("due_date", JString "2026-01-15T12:00:00Z")]
           {| title := "Test Task"; description := "Test Description";
              priority := high; due_date := Some "2026-01-15T12:00:00Z" |}
           eq_refl).
Defined.



End ModelsMore.

(** * Further properties of the producer *)

Module ApiMore.
Import Models Api ApiFacts.

Lemma post_tasks_cases cfg send_message task_id created_at fromisoformat request :
  let out := post_tasks cfg send_message task_id created_at fromisoformat request in
  (sent (fst out) = []
   /\ (status_code (snd out) = HTTP_400_BAD_REQUEST
       \/ snd out = internal_server_error))
  \/ ((status_code (snd out) = HTTP_201_CREATED
       \/ status_code (snd out) = HTTP_500_INTERNAL_SERVER_ERROR)
      /\ snd out <> internal_server_error
      /\ length (sent (fst out)) = 1).
Proof.
  intros out. subst out. destruct (json_body request) as [b|] eqn:Hb.
  - destruct (model_validate fromisoformat b) as [errors|task] eqn:Hv.
    + left.
      destruct (post_tasks_invalid cfg send_message task_id created_at
                  fromisoformat request b errors Hb Hv) as [Hs Hr].
      split; [exact Hs|]. rewrite Hr.
      destruct (existsb holds_exception errors); [by right|by left].
    + right.
      destruct (post_tasks_valid cfg send_message task_id created_at
                  fromisoformat request b task Hb Hv) as [Hs Hc].
      split; [exact Hc|]. split; [|by rewrite Hs].
      by apply (post_tasks_valid_json cfg send_message task_id created_at
                  fromisoformat request b task).
  - left. unfold post_tasks. rewrite Hb. cbn. split; [done|by left].
Qed.

(** X14. [POST /tasks] answers 201, 400 or 500.  Nothing is handed to the
    queue client exactly when the answer is 400 or the plain-text server
    error (the answer to a request whose validation errors the handler
    cannot encode); in every other case exactly one message is handed
    over. *)
Theorem post_tasks_outcomes cfg send_message task_id created_at fromisoformat request :
  let out := post_tasks cfg send_message task_id created_at fromisoformat request in
  (status_code (snd out) = HTTP_201_CREATED
   \/ status_code (snd out) = HTTP_400_BAD_REQUEST
   \/ status_code (snd out) = HTTP_500_INTERNAL_SERVER_ERROR)
  /\ (sent (fst out) = []
      <-> status_code (snd out) = HTTP_400_BAD_REQUEST
          \/ snd out = {| status_code := 500; body := Text "Internal Server Error" |})
  /\ (sent (fst out) <> [] -> length (sent (fst out)) = 1).
Proof.
  intros out.
  destruct (post_tasks_cases cfg send_message task_id created_at fromisoformat
              request) as [[Hs Hc]|(Hc & Hne & Hs)];
    fold out in Hs, Hc; try fold out in Hne.
  - split; [|split].
    + destruct Hc as [Hc|Hc]; [auto|]. rewrite Hc. auto.
    + by split.
    + by rewrite Hs.
  - split; [destruct Hc; auto|]. split; [|done].
    split.
    + intros Hnil. rewrite Hnil in Hs. discriminate.
    + intros [H400|H500]; [|done].
      destruct Hc as [Hc|Hc]; rewrite Hc in H400; discriminate.
Qed.

(** X15. When validation passes and the queue client returns, the answer
    is 201 and its body is the object that was queued: the same seven
    fields with the same values, [status] being ["queued"].  The message
    goes to the group ["tasks"] and its deduplication id is the task id
    of the body. *)
Theorem created_task_is_what_was_queued cfg send_message task_id created_at
    fromisoformat request b task response :
  json_body request = Some b ->
  model_validate fromisoformat b = inr task ->
  send_message (queue_message cfg task_id created_at task) = Sent response ->
  let out := post_tasks cfg send_message task_id created_at fromisoformat request in
  let m := queue_message cfg task_id created_at task in
  snd out = {| status_code := HTTP_201_CREATED; body := JSON (MessageBody m) |}
  /\ sent (fst out) = [m]
  /\ MessageGroupId m = "tasks"
  /\ py_get (MessageBody m) "task_id" JNull = Ok (JString (MessageDeduplicationId m))
  /\ MessageDeduplicationId m = task_id
  /\ QueueUrl m = QUEUE_URL cfg
  /\ py_get (MessageBody m) "status" JNull = Ok (JString "queued")
  /\ py_get (MessageBody m) "title" JNull = Ok (JString (title task))
  /\ py_get (MessageBody m) "description" JNull = Ok (JString (description task)).
Proof.
  intros Hb Hv Hs out m. subst out m. unfold post_tasks. rewrite Hb, Hv.
  unfold create_task. rewrite Hs. repeat split.
Qed.

Lemma created_task_is_what_was_queued_witness :
  let out :=
    post_tasks ApiSamples.open_cfg ApiSamples.queue_accepts ApiSamples.sample_id
      ApiSamples.sample_time ApiSamples.fromisoformat
      (ApiSamples.post [] ApiSamples.valid_task) in
  let m := MoreSamples.sample_message in
  snd out = {| status_code := HTTP_201_CREATED; body := JSON (MessageBody m) |}
  /\ sent (fst out) = [m]
  /\ MessageGroupId m = "tasks"
  /\ py_get (MessageBody m) "task_id" JNull = Ok (JString (MessageDeduplicationId m))
  /\ MessageDeduplicationId m = ApiSamples.sample_id
  /\ QueueUrl m = QUEUE_URL ApiSamples.open_cfg
  /\ py_get (MessageBody m) "status" JNull = Ok (JString "queued")
  /\ py_get (MessageBody m) "title" JNull = Ok (JString "Test Task")
  /\ py_get (MessageBody m) "description" JNull = Ok (JString "Test Description").
Proof.
  exact (created_task_is_what_was_queued ApiSamples.open_cfg
           ApiSamples.queue_accepts ApiSamples.sample_id ApiSamples.sample_time
           ApiSamples.fromisoformat (ApiSamples.post [] ApiSamples.valid_task)
           ApiSamples.valid_task MoreSamples.sample_task
           [("MessageId", "9f2c1a"); ("SequenceNumber", "1")]
           eq_refl eq_refl eq_refl).
Defined.


Lemma substring_prefix_length n : forall s,
  n <= String.length s -> String.length (substring 0 n s) = n.
Proof.
  induction n as [|n IH]; intros [|c s]; cbn; try lia.
  intros H. rewrite IH; lia.
Qed.

(** X17. With the gate enabled, a non-empty key that is not the
    configured one is rejected with one log record and no other effect.
    The record holds the key itself when it has at most 8 characters, and
    otherwise its first 8 characters followed by three dots: never more
    than 11 characters. *)
Theorem rejected_key_is_logged_shortened cfg request call_next k :
  path request ∉ exempt_paths ->
  ENABLE_API_KEY_CHECK cfg = true ->
  headers_get (headers request) "x-api-key" = Some k ->
  k <> EmptyString ->
  k <> VALID_API_KEY cfg ->
  fst (validate_api_key cfg request call_next)
  = [Log "WARNING" "Invalid API key"
       [("path", JString (path request)); ("method", JString (method request));
        ("api_key_provided", JString (key_preview k))]]
  /\ String.length (key_preview k) <= 11
  /\ (String.length k <= 8 -> key_preview k = k)
  /\ (8 < String.length k ->
      String.length (key_preview k) = 11
      /\ String.prefix (substring 0 8 k) k = true
      /\ key_preview k = substring 0 8 k +:+ "...").
Proof.
  intros Hpath Hon Hkey Hne Hbad.
  assert (existsb (String.eqb (path request)) exempt_paths = false) as Hex.
  { destruct (existsb _ _) eqn:E; [|done]. by apply exempt_spec in E. }
  split.
  - unfold validate_api_key. rewrite Hex, Hon, Hkey.
    destruct k as [|c k]; [done|].
    by destruct (String.eqb_spec (String c k) (VALID_API_KEY cfg)).
  - unfold key_preview.
    destruct (Nat.ltb_spec 8 (String.length k)) as [Hlong|Hshort].
    + assert (String.length (substring 0 8 k +:+ "...") = 11) as Hlen.
      { rewrite ModelsMore.length_append, substring_prefix_length by lia. done. }
      split; [lia|]. split; [lia|]. intros _. split; [done|]. split; [|done].
      apply prefix_correct. by rewrite substring_prefix_length by lia.
    + split; [lia|]. split; [done|]. lia.
Qed.

Lemma rejected_key_is_logged_shortened_witness :
  let request :=
    ApiSamples.post [("x-api-key", "invalid-key-12345")] ApiSamples.valid_task in
  let call_next :=
    post_tasks ApiSamples.gated_cfg ApiSamples.queue_accepts ApiSamples.sample_id
      ApiSamples.sample_time ApiSamples.fromisoformat in
  let k := "invalid-key-12345" in
  fst (validate_api_key ApiSamples.gated_cfg request call_next)
  = [Log "WARNING" "Invalid API key"
       [("path", JString (path request)); ("method", JString (method request));
        ("api_key_provided", JString (key_preview k))]]
  /\ String.length (key_preview k) <= 11
  /\ (String.length k <= 8 -> key_preview k = k)
  /\ (8 < String.length k ->
      String.length (key_preview k) = 11
      /\ String.prefix (substring 0 8 k) k = true
      /\ key_preview k = substring 0 8 k +:+ "...").
Proof.
  apply (rejected_key_is_logged_shortened ApiSamples.gated_cfg
           (ApiSamples.post [("x-api-key", "invalid-key-12345")]
              ApiSamples.valid_task)
           (post_tasks ApiSamples.gated_cfg ApiSamples.queue_accepts
              ApiSamples.sample_id ApiSamples.sample_time
              ApiSamples.fromisoformat)
           "invalid-key-12345").
  - intros Hin. apply exempt_spec in Hin. discriminate.
  - reflexivity.
  - reflexivity.
  - discriminate.
  - discriminate.
Defined.

End ApiMore.

(** * The producer and the consumer together *)

Module EndToEnd.
Import Models Api ApiFacts.

(** X18. Whatever the settings and the headers, a request to [/health]
    passes the middleware untouched: the answer is 200 with the status
    ["healthy"] and the time stamp, nothing is handed to the queue, and
    the only log record is the one of the health check. *)
Theorem health_needs_no_key cfg request timestamp :
  path request = "/health" ->
  let out := validate_api_key cfg request (fun _ => health_check timestamp) in
  snd out
  = {| status_code := 200;
       body := JSON (JObject [("status", JString "healthy");
                              ("timestamp", JString timestamp)]) |}
  /\ sent (fst out) = []
  /\ fst out = [Log "DEBUG" "Health check performed"
                  [("timestamp", JString timestamp)]].
Proof.
  intros Hp out. subst out. unfold validate_api_key. rewrite Hp. by cbn.
Qed.

Lemma health_needs_no_key_witness :
  let out :=
    validate_api_key ApiSamples.gated_cfg
      {| method := "GET"; path := "/health"; headers := []; json_body := None |}
      (fun _ => health_check ApiSamples.sample_time) in
  snd out
  = {| status_code := 200;
       body := JSON (JObject [("status", JString "healthy");
                              ("timestamp", JString ApiSamples.sample_time)]) |}
  /\ sent (fst out) = []
  /\ fst out = [Log "DEBUG" "Health check performed"
                  [("timestamp", JString ApiSamples.sample_time)]].
Proof.
  exact (health_needs_no_key ApiSamples.gated_cfg
           {| method := "GET"; path := "/health"; headers := []; json_body := None |}
           ApiSamples.sample_time eq_refl).
Defined.

(** X19. The message the producer queues for a task is one the consumer
    accepts: where [json.loads] gives back the object that [json.dumps]
    was given, a record carrying that text is processed under the task id
    the producer drew, is not a failure, and its redelivery adds
    nothing. *)
Theorem queued_message_is_processed json_loads json_dumps cfg task_id created_at
    task registry r rest :
  Processor.body r
  = Some (json_dumps (MessageBody (queue_message cfg task_id created_at task))) ->
  json_loads (json_dumps (MessageBody (queue_message cfg task_id created_at task)))
  = Some (MessageBody (queue_message cfg task_id created_at task)) ->
  Processor.task_key json_loads r = Some (KStr task_id)
  /\ Processor.lambda_handler json_loads registry (Processor.batch (r :: rest))
     = Processor.lambda_handler json_loads ({[KStr task_id]} ∪ registry)
         (Processor.batch rest)
  /\ Processor.lambda_handler json_loads registry (Processor.batch [r; r])
     = ({[KStr task_id]} ∪ registry, Ok []).
Proof.
  intros Hb Hl.
  assert (Processor.task_key json_loads r = Some (KStr task_id)) as Hk.
  { unfold Processor.task_key, Processor.payload. rewrite Hb.
    change (json_loads (default "{}" (Some ?x))) with (json_loads x).
    by rewrite Hl. }
  split; [exact Hk|]. rewrite !ProcessorFacts.lambda_handler_batch.
  rewrite !(ProcessorFacts.for_records_registers _ _ _ _ _ _ _ Hk).
  split; [done|]. cbn. f_equal. set_solver.
Qed.

Lemma queued_message_is_processed_witness :
  let r := Samples.sqs_record "msg-1" MoreSamples.queued_text in
  Processor.task_key MoreSamples.loads_queued r = Some (KStr ApiSamples.sample_id)
  /\ Processor.lambda_handler MoreSamples.loads_queued ∅
       (Processor.batch (r :: [Samples.poison]))
     = Processor.lambda_handler MoreSamples.loads_queued
         ({[KStr ApiSamples.sample_id]} ∪ ∅) (Processor.batch [Samples.poison])
  /\ Processor.lambda_handler MoreSamples.loads_queued ∅ (Processor.batch [r; r])
     = ({[KStr ApiSamples.sample_id]} ∪ ∅, Ok []).
Proof.
  exact (queued_message_is_processed MoreSamples.loads_queued MoreSamples.dumps
           ApiSamples.open_cfg ApiSamples.sample_id ApiSamples.sample_time
           MoreSamples.sample_task ∅
           (Samples.sqs_record "msg-1" MoreSamples.queued_text)
           [Samples.poison] eq_refl eq_refl).
Defined.

(** X20. The route [/tasks] behind the middleware answers 201, 400, 403
    or 500.  Nothing is handed to the queue client exactly when the answer
    is 403, 400 or the plain-text server error.  With the gate off the
    answer is the one of the route alone. *)
Theorem submit_outcomes cfg send_message task_id created_at fromisoformat request :
  path request = "/tasks" ->
  let out := submit cfg send_message task_id created_at fromisoformat request in
  (status_code (snd out) = HTTP_201_CREATED
   \/ status_code (snd out) = HTTP_400_BAD_REQUEST
   \/ status_code (snd out) = HTTP_403_FORBIDDEN
   \/ status_code (snd out) = HTTP_500_INTERNAL_SERVER_ERROR)
  /\ (sent (fst out) = []
      <-> status_code (snd out) = HTTP_403_FORBIDDEN
          \/ status_code (snd out) = HTTP_400_BAD_REQUEST
          \/ snd out = {| status_code := 500; body := Text "Internal Server Error" |})
  /\ (ENABLE_API_KEY_CHECK cfg = false ->
      out = post_tasks cfg send_message task_id created_at fromisoformat request).
Proof.
  intros Hp out.
  pose proof (ApiMore.post_tasks_cases cfg send_message task_id created_at
                fromisoformat request) as Hcases. cbv zeta in Hcases.
  assert (forall o : list effect * Response,
            (sent (fst o) = []
             /\ (status_code (snd o) = HTTP_403_FORBIDDEN
                 \/ status_code (snd o) = HTTP_400_BAD_REQUEST
                 \/ snd o = internal_server_error))
            \/ ((status_code (snd o) = HTTP_201_CREATED
                 \/ status_code (snd o) = HTTP_500_INTERNAL_SERVER_ERROR)
                /\ snd o <> internal_server_error
                /\ length (sent (fst o)) = 1) ->
            (status_code (snd o) = HTTP_201_CREATED
             \/ status_code (snd o) = HTTP_400_BAD_REQUEST
             \/ status_code (snd o) = HTTP_403_FORBIDDEN
             \/ status_code (snd o) = HTTP_500_INTERNAL_SERVER_ERROR)
            /\ (sent (fst o) = []
                <-> status_code (snd o) = HTTP_403_FORBIDDEN
                    \/ status_code (snd o) = HTTP_400_BAD_REQUEST
                    \/ snd o = internal_server_error)) as Hshape.
  { intros o [[Hs Hc]|(Hc & Hne & Hs)].
    - split; [|by split].
      destruct Hc as [Hc|[Hc|Hc]]; rewrite Hc; auto.
    - split; [destruct Hc; auto|]. split.
      + intros Hnil. rewrite Hnil in Hs. discriminate.
      + intros [H|[H|H]]; [| |done];
          destruct Hc as [Hc|Hc]; rewrite Hc in H; discriminate. }
  assert ((sent (fst out) = []
           /\ (status_code (snd out) = HTTP_403_FORBIDDEN
               \/ status_code (snd out) = HTTP_400_BAD_REQUEST
               \/ snd out = internal_server_error))
          \/ ((status_code (snd out) = HTTP_201_CREATED
               \/ status_code (snd out) = HTTP_500_INTERNAL_SERVER_ERROR)
              /\ snd out <> internal_server_error
              /\ length (sent (fst out)) = 1)) as Hout.
  { assert (forall o : list effect * Response,
              (sent (fst o) = []
               /\ (status_code (snd o) = HTTP_400_BAD_REQUEST
                   \/ snd o = internal_server_error))
              \/ ((status_code (snd o) = HTTP_201_CREATED
                   \/ status_code (snd o) = HTTP_500_INTERNAL_SERVER_ERROR)
                  /\ snd o <> internal_server_error
                  /\ length (sent (fst o)) = 1) ->
              (sent (fst o) = []
               /\ (status_code (snd o) = HTTP_403_FORBIDDEN
                   \/ status_code (snd o) = HTTP_400_BAD_REQUEST
                   \/ snd o = internal_server_error))
              \/ ((status_code (snd o) = HTTP_201_CREATED
                   \/ status_code (snd o) = HTTP_500_INTERNAL_SERVER_ERROR)
                  /\ snd o <> internal_server_error
                  /\ length (sent (fst o)) = 1)) as Hlift.
    { intros o [[Hs Hc]|H]; [left|by right].
      split; [done|]. destruct Hc; auto. }
    subst out. unfold submit, validate_api_key. rewrite Hp.
    change (existsb (String.eqb "/tasks") exempt_paths) with false. cbv iota.
    destruct (ENABLE_API_KEY_CHECK cfg).
    - destruct (headers_get (headers request) "x-api-key") as [[|c k]|].
      + left. split; [done|by left].
      + destruct (negb _).
        * left. split; [done|by left].
        * apply Hlift in Hcases.
          by destruct (post_tasks _ _ _ _ _ request) as [effects response].
      + left. split; [done|by left].
    - by apply Hlift. }
  destruct (Hshape out Hout) as [H1 H2]. split; [exact H1|]. split; [exact H2|].
  intros Hoff. subst out. unfold submit, validate_api_key. rewrite Hp, Hoff.
  reflexivity.
Qed.

Lemma submit_outcomes_witness :
  let out :=
    submit ApiSamples.gated_cfg ApiSamples.queue_accepts ApiSamples.sample_id
      ApiSamples.sample_time ApiSamples.fromisoformat
      (ApiSamples.post [("x-api-key", "test-api-key-12345")]
         (ApiSamples.task_json "Test Task" "Test Description" "high"
            (Some "not-a-date"))) in
  (status_code (snd out) = HTTP_201_CREATED
   \/ status_code (snd out) = HTTP_400_BAD_REQUEST
   \/ status_code (snd out) = HTTP_403_FORBIDDEN
   \/ status_code (snd out) = HTTP_500_INTERNAL_SERVER_ERROR)
  /\ (sent (fst out) = []
      <-> status_code (snd out) = HTTP_403_FORBIDDEN
          \/ status_code (snd out) = HTTP_400_BAD_REQUEST
          \/ snd out = {| status_code := 500; body := Text "Internal Server Error" |})
  /\ (ENABLE_API_KEY_CHECK ApiSamples.gated_cfg = false ->
      out = post_tasks ApiSamples.gated_cfg ApiSamples.queue_accepts
              ApiSamples.sample_id ApiSamples.sample_time
              ApiSamples.fromisoformat
              (ApiSamples.post [("x-api-key", "test-api-key-12345")]
                 (ApiSamples.task_json "Test Task" "Test Description" "high"
                    (Some "not-a-date")))).
Proof.
  exact (submit_outcomes ApiSamples.gated_cfg ApiSamples.queue_accepts
           ApiSamples.sample_id ApiSamples.sample_time ApiSamples.fromisoformat
           (ApiSamples.post [("x-api-key", "test-api-key-12345")]
              (ApiSamples.task_json "Test Task" "Test Description" "high"
                 (Some "not-a-date"))) eq_refl).
Defined.

End EndToEnd.
